(** * crawl4ai-mcp: the result-to-markdown pipeline of [crawl_mcp.py]

    A shallow embedding of the text sanitizer, the markdown link/image
    stripper, the result aggregator, the crawl orchestrator and the tool
    handler, with the properties stated about them.

    Python strings are sequences of Unicode code points, so a [str] is a
    list of code points ([N]); ASCII literals are written [lit "..."]. *)

From Stdlib Require Import ZArith NArith List String Ascii Bool Lia.
From Stdlib Require Import DecimalString.
From stdpp Require Import base option list gmap.

Local Open Scope N_scope.

(** ** Python strings *)

Abbreviation str := (list N).

Definition lit (s : string) : str :=
  List.map N_of_ascii (list_ascii_of_string s).

Definition nl : str := [10].

(** [s.startswith(p)] *)
Fixpoint starts_with (p s : str) : bool :=
  match p, s with
  | [], _ => true
  | _ :: _, [] => false
  | a :: p', b :: s' => (a =? b) && starts_with p' s'
  end.

(** [p in s] on strings: substring test. *)
Fixpoint contains (p s : str) : bool :=
  starts_with p s ||
  match s with
  | [] => false
  | _ :: s' => contains p s'
  end.

(** Number of positions of [s] at which [p] occurs. *)
Fixpoint occurrences (p s : str) : nat :=
  ((if starts_with p s then 1 else 0) +
   match s with
   | [] => 0
   | _ :: s' => occurrences p s'
   end)%nat.

(** [s.replace(old, new)]: leftmost, non-overlapping occurrences.  [skip]
    counts the characters of the occurrence being replaced that are still
    to be passed over. *)
Fixpoint replace_from (old new : str) (skip : nat) (s : str) : str :=
  match s with
  | [] => []
  | c :: s' =>
      match skip with
      | S n => replace_from old new n s'
      | O =>
          if starts_with old s
          then new ++ replace_from old new (length old - 1) s'
          else c :: replace_from old new 0 s'
      end
  end.

Definition replace (old new s : str) : str :=
  match old with
  | [] => new ++ concat (List.map (fun c => c :: new) s)
  | _ :: _ => replace_from old new 0 s
  end.

(** Decimal rendering, as [str(n)] gives it for an [int]. *)
Definition str_of_N (n : N) : str := lit (NilZero.string_of_uint (N.to_uint n)).
Definition str_of_Z (z : Z) : str := lit (NilZero.string_of_int (Z.to_int z)).

(** ** Python values reaching the sanitizer and the metadata mapping *)

Inductive pyval :=
| VNone
| VStr (s : str)
| VInt (z : Z)
| VBool (b : bool).

(** [str(v)] *)
Definition py_str (v : pyval) : str :=
  match v with
  | VNone => lit "None"
  | VStr s => s
  | VInt z => str_of_Z z
  | VBool true => lit "True"
  | VBool false => lit "False"
  end.

(** ** UTF-8 encoding

    [sys.getdefaultencoding()] is ["utf-8"]; [text.encode("utf-8")] raises
    [UnicodeEncodeError] exactly on a surrogate code point. *)

Definition is_surrogate (c : N) : bool := (0xD800 <=? c) && (c <=? 0xDFFF).

Definition utf8_encode_char (c : N) : option (list N) :=
  if c <? 0x80 then Some [c]
  else if c <? 0x800 then
    Some [N.lor 0xC0 (N.shiftr c 6); N.lor 0x80 (N.land c 0x3F)]
  else if is_surrogate c then None
  else if c <? 0x10000 then
    Some [N.lor 0xE0 (N.shiftr c 12);
          N.lor 0x80 (N.land (N.shiftr c 6) 0x3F);
          N.lor 0x80 (N.land c 0x3F)]
  else if c <? 0x110000 then
    Some [N.lor 0xF0 (N.shiftr c 18);
          N.lor 0x80 (N.land (N.shiftr c 12) 0x3F);
          N.lor 0x80 (N.land (N.shiftr c 6) 0x3F);
          N.lor 0x80 (N.land c 0x3F)]
  else None.

Fixpoint utf8_encode (s : str) : option (list N) :=
  match s with
  | [] => Some []
  | c :: s' =>
      match utf8_encode_char c, utf8_encode s' with
      | Some b, Some bs => Some (b ++ bs)
      | _, _ => None
      end
  end.

(** A Python string holds code points below 0x110000 only. *)
Definition wf_str (s : str) : Prop := Forall (fun c => c < 0x110000) s.

(** ** Regular expressions

    The patterns of the program are sequences of literal characters,
    character classes repeated greedily or lazily, and one capturing group.
    [go] is a backtracking matcher in continuation-passing style, anchored
    at the start of its input, as [re] tries a pattern at one position. *)

Inductive regex :=
| Eps
| Chr (c : N)
| Rep (p : N -> bool) (min : nat) (greedy : bool)
| Seq (r1 r2 : regex)
| Grp (r : regex).

Fixpoint cat (rs : list regex) : regex :=
  match rs with
  | [] => Eps
  | r :: rs' => Seq r (cat rs')
  end.

Definition Lit (s : str) : regex := cat (List.map Chr s).

Section Matcher.
Context {R : Type}.

(** [p{min,}] (greedy) or [p{min,}?] (lazy) followed by [k]. *)
Fixpoint rep (p : N -> bool) (greedy : bool) (min : nat) (s : str)
    (k : str -> option R) {struct s} : option R :=
  match min with
  | S m =>
      match s with
      | c :: s' => if p c then rep p greedy m s' k else None
      | [] => None
      end
  | O =>
      if greedy then
        match
          match s with
          | c :: s' => if p c then rep p greedy O s' k else None
          | [] => None
          end
        with
        | Some r => Some r
        | None => k s
        end
      else
        match k s with
        | Some r => Some r
        | None =>
            match s with
            | c :: s' => if p c then rep p greedy O s' k else None
            | [] => None
            end
        end
  end.

Fixpoint go (r : regex) (s : str) (g : option str)
    (k : str -> option str -> option R) : option R :=
  match r with
  | Eps => k s g
  | Chr c =>
      match s with
      | c' :: s' => if c =? c' then k s' g else None
      | [] => None
      end
  | Rep p min greedy => rep p greedy min s (fun s' => k s' g)
  | Seq a b => go a s g (fun s' g' => go b s' g' k)
  | Grp a =>
      go a s g (fun s' _ => k s' (Some (take (length s - length s') s)))
  end.
End Matcher.

(** The match of [r] at the start of [s]: the input left after it and the
    text of group 1. *)
Definition re_match (r : regex) (s : str) : option (str * option str) :=
  go r s None (fun s' g => Some (s', g)).

(** [re.sub(r, repl, s)] with a callable [repl], which may update a state of
    its own (the closure of [save_code_block] appends to a list).  The scan
    goes left to right; after a match it resumes behind the match.  Every
    pattern of the program consumes at least one character; a match of
    length 0 is passed over like a failed one. *)
Fixpoint sub_from {St : Type} (r : regex)
    (repl : St -> str -> option str -> str * St)
    (skip : nat) (st : St) (s : str) : str * St :=
  match s with
  | [] => ([], st)
  | c :: s' =>
      match skip with
      | S n => sub_from r repl n st s'
      | O =>
          match re_match r s with
          | Some (rest, g) =>
              match (length s - length rest)%nat with
              | S n =>
                  let '(out, st1) := repl st (take (S n) s) g in
                  let '(tl, st2) := sub_from r repl n st1 s' in
                  (out ++ tl, st2)
              | O =>
                  let '(tl, st1) := sub_from r repl 0 st s' in (c :: tl, st1)
              end
          | None =>
              let '(tl, st1) := sub_from r repl 0 st s' in (c :: tl, st1)
          end
      end
  end.

Definition re_sub_with {St : Type} (r : regex)
    (repl : St -> str -> option str -> str * St) (st : St) (s : str) : str * St :=
  sub_from r repl 0 st s.

(** [re.sub(r, repl, s)] with a replacement that depends on the match only
    (a template such as ["\1"] or a constant). *)
Definition re_sub (r : regex) (repl : str -> option str -> str) (s : str) : str :=
  fst (re_sub_with r (fun (_ : unit) m g => (repl m g, tt)) tt s).

(** *** Character classes *)

Definition any_char (_ : N) : bool := true.
Definition not_char (x : N) (c : N) : bool := negb (c =? x).
Definition is_char (x : N) (c : N) : bool := c =? x.

(** [\s] on a [str] pattern: the characters for which [str.isspace] holds. *)
Definition is_space (c : N) : bool :=
  ((0x09 <=? c) && (c <=? 0x0D)) || ((0x1C <=? c) && (c <=? 0x20)) ||
  (c =? 0x85) || (c =? 0xA0) || (c =? 0x1680) ||
  ((0x2000 <=? c) && (c <=? 0x200A)) ||
  (c =? 0x2028) || (c =? 0x2029) || (c =? 0x202F) || (c =? 0x205F) ||
  (c =? 0x3000).

(** [[^\x00-\x7F]] *)
Definition non_ascii (c : N) : bool := negb (c <=? 0x7F).

(** ** sanitize_text *)

Definition replacements : list (str * str) :=
  [ ([0x2192], lit "->");
    ([0x2190], lit "<-");
    ([0x2191], lit "^");
    ([0x2193], lit "v");
    ([0x2022], lit "*");
    ([0x2013], lit "-");
    ([0x2014], lit "--");
    ([0x2018], lit "'");
    ([0x2019], lit "'");
    ([0x201c], [0x22]);
    ([0x201d], [0x22]);
    ([0x2026], lit "...");
    ([0x00a0], lit " ") ].

(** [[^\x00-\x7F]+] *)
Definition non_ascii_run : regex := Rep non_ascii 1 true.

Definition sanitize_text (text : pyval) : str :=
  match text with
  | VNone => []
  | _ =>
      let text := match text with VStr s => s | v => py_str v end in
      match utf8_encode text with
      | Some _ => text
      | None =>
          let text :=
            fold_left (fun t cr => replace (fst cr) (snd cr) t) replacements text in
          re_sub non_ascii_run (fun _ _ => lit " ") text
      end
  end.

(** ** remove_links_from_markdown *)

(** [f"__CODE_BLOCK_{i}__"] *)
Definition placeholder (i : nat) : str :=
  lit "__CODE_BLOCK_" ++ str_of_N (N.of_nat i) ++ lit "__".

Definition save_code_block (code_blocks : list str) (m : str) (_ : option str)
    : str * list str :=
  let code_blocks := code_blocks ++ [m] in
  (placeholder (length code_blocks - 1), code_blocks).

(** [```[\s\S]*?```] *)
Definition code_block_re : regex :=
  cat [Lit (lit "```"); Rep any_char 0 false; Lit (lit "```")].

(** [\[([^\]]+)\]\([^)]+\)] *)
Definition link_re : regex :=
  cat [Chr 0x5B; Grp (Rep (not_char 0x5D) 1 true); Chr 0x5D;
       Chr 0x28; Rep (not_char 0x29) 1 true; Chr 0x29].

(** [!\[[^\]]*\]\([^)]+\)] *)
Definition image_re : regex :=
  cat [Chr 0x21; Chr 0x5B; Rep (not_char 0x5D) 0 true; Chr 0x5D;
       Chr 0x28; Rep (not_char 0x29) 1 true; Chr 0x29].

(** [\n\s*\n] *)
Definition blank_lines_re : regex :=
  cat [Chr 10; Rep is_space 0 true; Chr 10].

(** [ {2,}] *)
Definition spaces_re : regex := Rep (is_char 0x20) 2 true.

Definition enumerate {A : Type} (l : list A) : list (nat * A) :=
  combine (seq 0 (length l)) l.

Definition remove_links_from_markdown (markdown_text : str) : str :=
  let '(markdown_with_placeholders, code_blocks) :=
    re_sub_with code_block_re save_code_block [] markdown_text in
  let text_without_links :=
    re_sub link_re (fun _ g => default [] g) markdown_with_placeholders in
  let text_without_images :=
    re_sub image_re (fun _ _ => []) text_without_links in
  let text_without_empty_lines :=
    re_sub blank_lines_re (fun _ _ => nl ++ nl) text_without_images in
  let text_without_extra_spaces :=
    re_sub spaces_re (fun _ _ => lit " ") text_without_empty_lines in
  fold_left
    (fun result ic => replace (placeholder (fst ic)) (snd ic) result)
    (enumerate code_blocks) text_without_extra_spaces.

(** ** Dates: the parts of [datetime] the program uses *)

Record datetime := {
  year : N; month : N; day : N;
  hour : N; minute : N; second : N; microsecond : N
}.

(** [n] in decimal, zero-padded on the left to [width] digits. *)
Definition pad (width : nat) (n : N) : str :=
  let d := str_of_N n in
  List.repeat 0x30 (width - length d) ++ d.

(** [strftime("%Y%m%d_%H%M%S")], for the years from 1000 on (below, the C
    library decides how [%Y] is padded). *)
Definition strftime_compact (d : datetime) : str :=
  pad 4 (year d) ++ pad 2 (month d) ++ pad 2 (day d) ++ lit "_" ++
  pad 2 (hour d) ++ pad 2 (minute d) ++ pad 2 (second d).

(** [isoformat()]: the fraction is printed when the microseconds are not 0. *)
Definition isoformat (d : datetime) : str :=
  pad 4 (year d) ++ lit "-" ++ pad 2 (month d) ++ lit "-" ++ pad 2 (day d) ++
  lit "T" ++ pad 2 (hour d) ++ lit ":" ++ pad 2 (minute d) ++ lit ":" ++
  pad 2 (second d) ++
  (if microsecond d =? 0 then [] else lit "." ++ pad 6 (microsecond d)).

Definition is_leap (y : N) : bool :=
  (y mod 4 =? 0) && (negb (y mod 100 =? 0) || (y mod 400 =? 0)).

Definition days_before_year (y : N) : N :=
  let y := y - 1 in y * 365 + y / 4 - y / 100 + y / 400.

Definition days_before_month (y m : N) : N :=
  nth (N.to_nat m) [0; 0; 31; 59; 90; 120; 151; 181; 212; 243; 273; 304; 334] 0 +
  (if (2 <? m) && is_leap y then 1 else 0).

Definition toordinal (d : datetime) : N :=
  days_before_year (year d) + days_before_month (year d) (month d) + day d.

(** [(a - b)] as a [timedelta], in microseconds; [total_seconds()] is this
    number divided by 10^6, a float of the same sign. *)
Definition sub_microseconds (a b : datetime) : Z :=
  let secs (d : datetime) := Z.of_N (second d + minute d * 60 + hour d * 3600) in
  (((Z.of_N (toordinal a) - Z.of_N (toordinal b)) * 86400 + (secs a - secs b))
     * 1000000 + (Z.of_N (microsecond a) - Z.of_N (microsecond b)))%Z.

(** ** Crawl results, statistics, exceptions *)

(** What the loop reads of a crawl result.  [markdown] and [text] are read
    with [getattr(result, _, None)]; [metadata] is a [dict] or [None]. *)
Record PageResult := {
  url : str;
  markdown : option str;
  text : option str;
  metadata : option (gmap str pyval)
}.

(** The [stats] dict.  The four counters are always there; the other keys
    are set at different places, [None] stands for a key that is absent.
    [duration_seconds] is kept in microseconds. *)
Record Stats := {
  successful_pages : nat;
  failed_pages : nat;
  not_found_pages : nat;
  forbidden_pages : nat;
  start_time : option datetime;
  end_time : option datetime;
  duration_seconds : option Z
}.

Definition zero_stats : Stats :=
  {| successful_pages := 0; failed_pages := 0; not_found_pages := 0;
     forbidden_pages := 0; start_time := None; end_time := None;
     duration_seconds := None |}.

Inductive exn :=
| ValueError (msg : str)
| TypeError (msg : str)
| AttributeError (msg : str)
| OSError (msg : str)
| KeyError (msg : str)
| UnicodeEncodeError (msg : str)
| EngineError (msg : str).

(** [str(e)] *)
Definition exn_msg (e : exn) : str :=
  match e with
  | ValueError m | TypeError m | AttributeError m | OSError m
  | KeyError m | UnicodeEncodeError m | EngineError m => m
  end.

(** The dict that [results_to_markdown] and [crawl_and_output_to_markdown]
    return. *)
Record CrawlResult := {
  error : option str;
  file_path : option str;
  res_stats : Stats
}.

(** ** The world outside the program

    [env] fixes what the outside answers: the successive readings of the
    wall clock, which file operations fail, what the crawl engine returns.
    [state] is what a run changes: how many readings and writes were made,
    the files, and the [stats] dict of the aggregation in progress (a dict
    is mutated in place, so what was counted before an exception stays). *)

Record CrawlConfig := {
  cfg_max_depth : pyval;
  cfg_include_external : pyval;
  cfg_verbose : pyval
}.

Record env := {
  clock : nat -> datetime;
  open_error : str -> option str;
  write_error : nat -> option str;
  makedirs_error : str -> option str;
  results_directory : str;
  engine : str -> CrawlConfig -> exn + list PageResult;
  format_2f : Z -> str
}.

Record state := {
  now_calls : nat;
  write_calls : nat;
  fs : gmap str str;
  stats : Stats
}.

Definition set_stats (f : Stats -> Stats) (st : state) : state :=
  {| now_calls := now_calls st; write_calls := write_calls st; fs := fs st;
     stats := f (stats st) |}.

Definition set_fs (f : gmap str str -> gmap str str) (st : state) : state :=
  {| now_calls := now_calls st; write_calls := write_calls st; fs := f (fs st);
     stats := stats st |}.

(** *** Computations that change the state and may raise *)

Inductive res (A : Type) :=
| Ok (a : A)
| Raise (e : exn).
Arguments Ok {A} a.
Arguments Raise {A} e.

Definition M (A : Type) : Type := state -> res A * state.

Definition ret {A} (a : A) : M A := fun st => (Ok a, st).
Definition raise {A} (e : exn) : M A := fun st => (Raise e, st).
Definition bind {A B} (m : M A) (k : A -> M B) : M B :=
  fun st =>
    match m st with
    | (Ok a, st') => k a st'
    | (Raise e, st') => (Raise e, st')
    end.
Definition try_except {A} (m : M A) (handler : exn -> M A) : M A :=
  fun st =>
    match m st with
    | (Ok a, st') => (Ok a, st')
    | (Raise e, st') => handler e st'
    end.
Definition get_stats : M Stats := fun st => (Ok (stats st), st).
Definition update_stats (f : Stats -> Stats) : M unit :=
  fun st => (Ok tt, set_stats f st).

Notation "x <- m ;; k" := (bind m (fun x => k))
  (at level 100, m at next level, right associativity).
Notation "m ;;; k" := (bind m (fun _ => k))
  (at level 100, right associativity).

(** [for x in l: body x] *)
Fixpoint for_each {A} (body : A -> M unit) (l : list A) : M unit :=
  match l with
  | [] => ret tt
  | x :: l' => body x ;;; for_each body l'
  end.

(** ** The parts of the standard library the program calls *)

(** [a or b] on values that are a string or [None]. *)
Definition py_or (a b : option str) : option str :=
  match a with
  | Some (_ :: _) => a
  | _ => b
  end.

(** The [UnicodeEncodeError] of the UTF-8 encoder on [s]: it names the
    first surrogate and its position, or the positions of the run of
    surrogates that starts there. *)
Definition hex_digit (n : N) : N := if n <? 10 then 0x30 + n else 0x57 + n.

Definition hex4 (c : N) : str :=
  [hex_digit (c / 4096 mod 16); hex_digit (c / 256 mod 16);
   hex_digit (c / 16 mod 16); hex_digit (c mod 16)].

Fixpoint find_surrogate (s : str) (pos : N) : option (N * N * str) :=
  match s with
  | [] => None
  | c :: s' =>
      if is_surrogate c then Some (pos, c, s') else find_surrogate s' (pos + 1)
  end.

Fixpoint surrogate_run (s : str) : N :=
  match s with
  | c :: s' => if is_surrogate c then 1 + surrogate_run s' else 0
  | [] => 0
  end.

Definition encode_error (s : str) : exn :=
  match find_surrogate s 0 with
  | Some (pos, c, rest) =>
      let n := surrogate_run rest in
      UnicodeEncodeError
        (if n =? 0 then
           lit "'utf-8' codec can't encode character '\u" ++ hex4 c ++
           lit "' in position " ++ str_of_N pos ++ lit ": surrogates not allowed"
         else
           lit "'utf-8' codec can't encode characters in position " ++
           str_of_N pos ++ lit "-" ++ str_of_N (pos + n) ++
           lit ": surrogates not allowed")
  | None => UnicodeEncodeError (lit "surrogates not allowed")
  end.

(** [print(text)]: standard output is a UTF-8 text stream (the program
    re-wraps it at start-up when it is not), so a text with a lone surrogate
    raises [UnicodeEncodeError].  What is printed is not recorded. *)
Definition print (text : str) : M unit :=
  fun st =>
    match utf8_encode text with
    | Some _ => (Ok tt, st)
    | None => (Raise (encode_error text), st)
    end.

(** [needle in v]: a substring test on a string, [TypeError] otherwise. *)
Definition py_in (needle : str) (v : pyval) : M bool :=
  match v with
  | VStr s => ret (contains needle s)
  | VNone => raise (TypeError (lit "argument of type 'NoneType' is not iterable"))
  | VInt _ => raise (TypeError (lit "argument of type 'int' is not iterable"))
  | VBool _ => raise (TypeError (lit "argument of type 'bool' is not iterable"))
  end.

(** [any(i in v for i in indicators)]: the generator stops at the first hit. *)
Fixpoint any_in (indicators : list str) (v : pyval) : M bool :=
  match indicators with
  | [] => ret false
  | i :: rest => b <- py_in i v ;; if b then ret true else any_in rest v
  end.

(** [os.path.join(dir, name)] on POSIX paths. *)
Definition path_join (dir name : str) : str :=
  if starts_with (lit "/") name then name
  else if bool_decide (dir = []) then name
  else if bool_decide (last dir = Some 0x2F) then dir ++ name
  else dir ++ lit "/" ++ name.

(** *** [urllib.parse.urlparse(url).netloc]

    After CPython's [urlsplit]: leading control characters and spaces are
    stripped, tabs and line breaks removed, a scheme is split off, and when
    the rest starts with [//] the netloc runs up to the first of [/?#].  A
    netloc with one bracket but not the other raises [ValueError].  Two
    later checks of [urlsplit], the validation of a bracketed host as an IP
    literal and the NFKC check of a non-ASCII netloc, are left out. *)

Definition is_alpha (c : N) : bool :=
  ((0x41 <=? c) && (c <=? 0x5A)) || ((0x61 <=? c) && (c <=? 0x7A)).
Definition is_digit (c : N) : bool := (0x30 <=? c) && (c <=? 0x39).
Definition scheme_char (c : N) : bool :=
  is_alpha c || is_digit c || (c =? 0x2B) || (c =? 0x2D) || (c =? 0x2E).

Fixpoint lstrip (p : N -> bool) (s : str) : str :=
  match s with
  | c :: s' => if p c then lstrip p s' else s
  | [] => []
  end.

(** The text before the first [c] and the text after it, when [c] occurs. *)
Fixpoint split_at (c : N) (s : str) : option (str * str) :=
  match s with
  | [] => None
  | x :: s' =>
      if x =? c then Some ([], s')
      else match split_at c s' with
           | Some (a, b) => Some (x :: a, b)
           | None => None
           end
  end.

Fixpoint take_until (p : N -> bool) (s : str) : str :=
  match s with
  | c :: s' => if p c then [] else c :: take_until p s'
  | [] => []
  end.

Definition strip_scheme (url : str) : str :=
  match split_at 0x3A url with
  | Some (c :: sch, rest) =>
      if is_alpha c && forallb scheme_char (c :: sch) then rest else url
  | _ => url
  end.

Definition urlparse_netloc (url : str) : res str :=
  let url := lstrip (fun c => c <=? 0x20) url in
  let url :=
    List.filter (fun c => negb ((c =? 0x09) || (c =? 0x0A) || (c =? 0x0D))) url in
  let url := strip_scheme url in
  match url with
  | 0x2F :: 0x2F :: rest =>
      let netloc :=
        take_until (fun c => (c =? 0x2F) || (c =? 0x3F) || (c =? 0x23)) rest in
      let lb := existsb (N.eqb 0x5B) netloc in
      let rb := existsb (N.eqb 0x5D) netloc in
      if (lb && negb rb) || (rb && negb lb)
      then Raise (ValueError (lit "Invalid IPv6 URL"))
      else Ok netloc
  | _ => Ok []
  end.

(** ** The program *)

Definition error_indicators : list str :=
  [lit "404"; lit "403"; lit "Not Found"; lit "Forbidden"].

(** The literal template of one page section. *)
Definition md_content (title url depth timestamp text_for_output : str) : str :=
  nl ++ lit "# " ++ title ++ nl ++
  nl ++ lit "## URL" ++ nl ++
  url ++ nl ++
  nl ++ lit "## Metadata" ++ nl ++
  lit "- Depth: " ++ depth ++ nl ++
  lit "- Timestamp: " ++ timestamp ++ nl ++
  nl ++ lit "## Content" ++ nl ++
  text_for_output ++ nl ++
  nl ++ lit "---" ++ nl.

Definition incr_successful (s : Stats) : Stats :=
  {| successful_pages := successful_pages s + 1; failed_pages := failed_pages s;
     not_found_pages := not_found_pages s; forbidden_pages := forbidden_pages s;
     start_time := start_time s; end_time := end_time s;
     duration_seconds := duration_seconds s |}.
Definition incr_failed (s : Stats) : Stats :=
  {| successful_pages := successful_pages s; failed_pages := failed_pages s + 1;
     not_found_pages := not_found_pages s; forbidden_pages := forbidden_pages s;
     start_time := start_time s; end_time := end_time s;
     duration_seconds := duration_seconds s |}.
Definition incr_not_found (s : Stats) : Stats :=
  {| successful_pages := successful_pages s; failed_pages := failed_pages s;
     not_found_pages := not_found_pages s + 1; forbidden_pages := forbidden_pages s;
     start_time := start_time s; end_time := end_time s;
     duration_seconds := duration_seconds s |}.
Definition incr_forbidden (s : Stats) : Stats :=
  {| successful_pages := successful_pages s; failed_pages := failed_pages s;
     not_found_pages := not_found_pages s; forbidden_pages := forbidden_pages s + 1;
     start_time := start_time s; end_time := end_time s;
     duration_seconds := duration_seconds s |}.
Definition set_end_time (t : datetime) (s : Stats) : Stats :=
  {| successful_pages := successful_pages s; failed_pages := failed_pages s;
     not_found_pages := not_found_pages s; forbidden_pages := forbidden_pages s;
     start_time := start_time s; end_time := Some t;
     duration_seconds := duration_seconds s |}.
Definition set_duration_seconds (d : Z) (s : Stats) : Stats :=
  {| successful_pages := successful_pages s; failed_pages := failed_pages s;
     not_found_pages := not_found_pages s; forbidden_pages := forbidden_pages s;
     start_time := start_time s; end_time := end_time s;
     duration_seconds := Some d |}.

Section Program.
Variable E : env.

(** [datetime.now()] *)
Definition now : M datetime :=
  fun st =>
    (Ok (clock E (now_calls st)),
     {| now_calls := S (now_calls st); write_calls := write_calls st;
        fs := fs st; stats := stats st |}).

(** [open(path, "w", encoding="utf-8")]: the file is created or emptied. *)
Definition open_w (path : str) : M unit :=
  fun st =>
    match open_error E path with
    | Some msg => (Raise (OSError msg), st)
    | None => (Ok tt, set_fs (fun f => <[path := []]> f) st)
    end.

(** [md_file.write(data)] on the file opened at [path]: the text is
    encoded on the way, then appended unless the system refuses. *)
Definition write (path data : str) : M unit :=
  fun st =>
    match utf8_encode data with
    | None => (Raise (encode_error data), st)
    | Some _ =>
        let st' :=
          {| now_calls := now_calls st; write_calls := S (write_calls st);
             fs := fs st; stats := stats st |} in
        match write_error E (write_calls st) with
        | Some msg => (Raise (OSError msg), st')
        | None =>
            (Ok tt,
             set_fs (fun f => <[path := default [] (f !! path) ++ data]> f) st')
        end
    end.

(** [os.makedirs(path, exist_ok=True)].  For the output file the program
    passes the folder of its absolute path; the outside is asked with the
    path of the file, [dirname] and [abspath] are not part of the model. *)
Definition makedirs (path : str) : M unit :=
  fun st =>
    match makedirs_error E path with
    | Some msg => (Raise (OSError msg), st)
    | None => (Ok tt, st)
    end.

(** The body of the loop of [results_to_markdown]; each [continue] ends
    it.  The three [print] calls that show the URL of a skipped result come
    before the counter is raised.  The other [print] calls of the program
    show fixed words and numbers, or the message of an exception that was
    caught, in which Python escapes what cannot be printed; they are left
    out. *)
Definition process_result (output_path : str) (result : PageResult) : M unit :=
  match py_or (markdown result) (text result) with
  | None | Some [] =>
      print (lit "No content found for " ++ url result ++ lit " - Skipped") ;;;
      update_stats incr_failed
  | Some text_for_output =>
      if (contains (lit "404 Not Found") text_for_output
          || contains (lit "403 Forbidden") text_for_output)
         && contains (lit "nginx") text_for_output
      then
        let error_type :=
          if contains (lit "404 Not Found") text_for_output
          then lit "404" else lit "403" in
        print (error_type ++ lit " page detected and skipped: " ++ url result) ;;;
        if bool_decide (error_type = lit "404")
        then update_stats incr_not_found
        else update_stats incr_forbidden
      else
        let text_for_output := remove_links_from_markdown text_for_output in
        meta <- match metadata result with
                | Some d => ret d
                | None =>
                    raise (AttributeError
                             (lit "'NoneType' object has no attribute 'get'"))
                end ;;
        let depth := default (VStr (lit "N/A")) (meta !! lit "depth") in
        t <- now ;;
        let timestamp := isoformat t in
        let title := default (VStr (lit "Untitled page")) (meta !! lit "title") in
        is_error <- any_in error_indicators title ;;
        if is_error then
          print (lit "Page with error title detected and skipped: "
                 ++ url result) ;;;
          b404 <- py_in (lit "404") title ;;
          bnf <- (if b404 then ret true else py_in (lit "Not Found") title) ;;
          if bnf then update_stats incr_not_found
          else update_stats incr_forbidden
        else
          write output_path
            (md_content (py_str title) (url result) (py_str depth) timestamp
               text_for_output) ;;;
          update_stats incr_successful
  end.

Definition results_to_markdown (results : list PageResult) (output_path : str)
    : M CrawlResult :=
  t0 <- now ;;
  update_stats (fun _ =>
    {| successful_pages := 0; failed_pages := 0; not_found_pages := 0;
       forbidden_pages := 0; start_time := Some t0; end_time := None;
       duration_seconds := None |}) ;;;
  try_except
    (open_w output_path ;;;
     for_each (process_result output_path) results ;;;
     t1 <- now ;;
     update_stats (set_end_time t1) ;;;
     s <- get_stats ;;
     match end_time s, start_time s with
     | Some e, Some b =>
         update_stats (set_duration_seconds (sub_microseconds e b))
     | _, _ => raise (KeyError (lit "'start_time'"))
     end ;;;
     s <- get_stats ;;
     ret {| error := None; file_path := Some output_path; res_stats := s |})
    (fun e =>
       s <- get_stats ;;
       ret {| error := Some (lit "Writing error: " ++ exn_msg e);
              file_path := None; res_stats := s |}).

(** [generate_filename_from_url] *)
Definition generate_filename_from_url (url : str) : M str :=
  netloc <- (fun st => (urlparse_netloc url, st)) ;;
  let hostname := replace (lit ".") (lit "_") netloc in
  t <- now ;;
  let timestamp := strftime_compact t in
  ret (lit "crawl_" ++ hostname ++ lit "_" ++ timestamp ++ lit ".md").

(** [get_results_directory]: the folder next to the program, made when it
    is not there. *)
Definition get_results_directory : M str :=
  makedirs (results_directory E) ;;;
  ret (results_directory E).

Definition crawl_and_output_to_markdown (start_url : str)
    (max_depth include_external verbose : pyval) (output_file : option str)
    : M CrawlResult :=
  output_file <-
    match output_file with
    | Some (c :: f) => ret (c :: f)
    | _ =>
        dir <- get_results_directory ;;
        name <- generate_filename_from_url start_url ;;
        ret (path_join dir name)
    end ;;
  let config :=
    {| cfg_max_depth := max_depth; cfg_include_external := include_external;
       cfg_verbose := verbose |} in
  try_except
    (results <- (fun st =>
                   (match engine E start_url config with
                    | inl e => Raise e
                    | inr rs => Ok rs
                    end, st)) ;;
     makedirs output_file ;;;
     results_to_markdown results output_file)
    (fun e =>
       ret {| error := Some (lit "Crawling error: " ++ exn_msg e);
              file_path := None;
              res_stats :=
                {| successful_pages := 0; failed_pages := 0;
                   not_found_pages := 0; forbidden_pages := 0;
                   start_time := None; end_time := None;
                   duration_seconds := Some 0%Z |} |}).

(** A [types.TextContent(type="text", text=...)] item. *)
Definition TextContent := str.

(** An argument that the signature of the callee declares a [str]: a call
    with another value raises [TypeError] in the library that receives it. *)
Definition as_str (v : pyval) : M str :=
  match v with
  | VStr s => ret s
  | _ => raise (TypeError (lit "expected str"))
  end.

Definition as_opt_str (v : pyval) : M (option str) :=
  match v with
  | VNone => ret None
  | VStr s => ret (Some s)
  | _ => raise (TypeError (lit "expected str"))
  end.

Definition summary (url file_path : str) (s : Stats) (duration : Z) : str :=
  nl ++ lit "## Crawl completed successfully" ++ nl ++
  lit "- URL: " ++ url ++ nl ++
  lit "- Result file: " ++ file_path ++ nl ++
  lit "- Duration: " ++ format_2f E duration ++ lit " seconds" ++ nl ++
  lit "- Pages processed: " ++ str_of_N (N.of_nat (successful_pages s)) ++
  lit " successful, " ++ str_of_N (N.of_nat (failed_pages s)) ++
  lit " failed, " ++ nl ++
  lit "  " ++ str_of_N (N.of_nat (not_found_pages s)) ++
  lit " not found (404), " ++ str_of_N (N.of_nat (forbidden_pages s)) ++
  lit " access forbidden (403)" ++ nl ++
  nl ++ lit "You can view the results in the file: " ++ file_path ++ nl ++
  lit "(Results are now stored in the 'crawl_results' folder of your project)" ++
  nl ++ lit "            ".

(** The handler registered with [@app.call_tool()]. *)
Definition crawl_tool (name : str) (arguments : gmap str pyval)
    : M (list TextContent) :=
  if negb (bool_decide (name = lit "crawl"))
  then raise (ValueError (lit "Unknown tool: " ++ name))
  else
    match arguments !! lit "url" with
    | None => raise (ValueError (lit "Missing required argument 'url'"))
    | Some url =>
        let max_depth := default (VInt 2) (arguments !! lit "max_depth") in
        let include_external :=
          default (VBool false) (arguments !! lit "include_external") in
        let verbose := default (VBool true) (arguments !! lit "verbose") in
        let output_file := default VNone (arguments !! lit "output_file") in
        try_except
          (start_url <- as_str url ;;
           output_file <- as_opt_str output_file ;;
           result <- crawl_and_output_to_markdown start_url max_depth
                       include_external verbose output_file ;;
           match error result with
           | Some (c :: msg) => ret [lit "Error: " ++ c :: msg]
           | _ =>
               match file_path result, duration_seconds (res_stats result) with
               | Some path, Some d =>
                   ret [summary (py_str url) path (res_stats result) d]
               | None, Some d =>
                   ret [summary (py_str url) (lit "None") (res_stats result) d]
               | _, None => raise (KeyError (lit "'duration_seconds'"))
               end
           end)
          (fun e => ret [lit "Error: " ++ sanitize_text (VStr (exn_msg e))])
    end.
End Program.

(** ** The classification behind the loop

    The outcomes of section 4.3 of the specification and its rules in their
    order, read off the fields of a result without running the loop.
    [Aborts] is added for a result on which the loop body raises: one with
    no metadata mapping, or with a title that is not a string.  A result
    that is skipped is shown on the console first; when its URL cannot be
    printed the loop raises there, which the classification does not
    tell. *)

Inductive ErrorKind := NotFound | Forbidden.

Inductive Outcome :=
| Accepted (text : str)
| SkippedNoContent
| SkippedErrorPage (kind : ErrorKind)
| Aborts.

Definition title_of (r : PageResult) : pyval :=
  default (VStr (lit "Untitled page")) (default ∅ (metadata r) !! lit "title").

Definition depth_of (r : PageResult) : pyval :=
  default (VStr (lit "N/A")) (default ∅ (metadata r) !! lit "depth").

Definition classify (r : PageResult) : Outcome :=
  match py_or (markdown r) (text r) with
  | None | Some [] => SkippedNoContent
  | Some t =>
      if contains (lit "404 Not Found") t && contains (lit "nginx") t
      then SkippedErrorPage NotFound
      else if contains (lit "403 Forbidden") t && contains (lit "nginx") t
      then SkippedErrorPage Forbidden
      else
        match metadata r, title_of r with
        | Some _, VStr title =>
            if existsb (fun i => contains i title) error_indicators then
              if contains (lit "404") title || contains (lit "Not Found") title
              then SkippedErrorPage NotFound
              else SkippedErrorPage Forbidden
            else Accepted (remove_links_from_markdown t)
        | _, _ => Aborts
        end
  end.

Definition is_accepted (r : PageResult) : bool :=
  match classify r with
  | Accepted _ => true
  | _ => false
  end.

Definition total_pages (s : Stats) : nat :=
  (successful_pages s + failed_pages s + not_found_pages s + forbidden_pages s)%nat.

Definition heading : str := lit "## Content".

(** The values that go into the section of an accepted page bring no
    ["## Content"] of their own. *)
Definition free_of_heading (r : PageResult) : Prop :=
  match classify r with
  | Accepted body =>
      contains heading (py_str (title_of r)) = false /\
      contains heading (url r) = false /\
      contains heading (py_str (depth_of r)) = false /\
      contains heading body = false
  | _ => True
  end.

(** [sec] is the section written for the accepted result [r], stamped with
    some reading of the clock. *)
Definition section_of (r : PageResult) (sec : str) : Prop :=
  exists t body,
    classify r = Accepted body /\
    sec = md_content (py_str (title_of r)) (url r) (py_str (depth_of r))
            (isoformat t) body.

(** The host part of the file name as the specification words it: every
    character that is not a letter or a digit becomes an underscore. *)
Definition spec_host_part (netloc : str) : str :=
  List.map (fun c => if is_alpha c || is_digit c then c else 0x5F) netloc.

(** ** Sample inputs *)

Definition sample_env : env :=
  {| clock := fun n =>
       {| year := 2024; month := 3; day := 9; hour := 7; minute := 5;
          second := N.of_nat n; microsecond := 0 |};
     open_error := fun _ => None;
     write_error := fun _ => None;
     makedirs_error := fun _ => None;
     results_directory := lit "/srv/app/crawl_results";
     engine := fun _ _ => inr [];
     format_2f := fun d =>
       str_of_Z (d / 1000000) ++ lit "." ++ pad 2 (Z.to_N ((d mod 1000000) / 10000)) |}.

(** The same world with a full disk: every write is refused. *)
Definition full_disk_env : env :=
  {| clock := clock sample_env;
     open_error := fun _ => None;
     write_error := fun _ => Some (lit "[Errno 28] No space left on device");
     makedirs_error := fun _ => None;
     results_directory := results_directory sample_env;
     engine := engine sample_env;
     format_2f := format_2f sample_env |}.

Definition initial_state : state :=
  {| now_calls := 0; write_calls := 0; fs := ∅; stats := zero_stats |}.

Definition sample_page (content title : string) : PageResult :=
  {| url := lit "http://example.com/page";
     markdown := Some (lit content);
     text := None;
     metadata := Some {[ lit "title" := VStr (lit title); lit "depth" := VInt 1 ]} |}.

Definition sample_pages : list PageResult :=
  [ sample_page "hello [a](b)" "Home";
    sample_page "404 Not Found nginx" "Home";
    sample_page "welcome" "403 Forbidden Error";
    {| url := lit "http://example.com/empty"; markdown := None; text := Some [];
       metadata := None |} ].

Definition sample_time (n : N) : datetime :=
  {| year := 2024; month := 3; day := 9; hour := 7; minute := 5;
     second := n; microsecond := 0 |}.

(** What aggregating [sample_pages] in [sample_env] returns. *)
Definition sample_result : CrawlResult :=
  {| error := None;
     file_path := Some (lit "out.md");
     res_stats :=
       {| successful_pages := 1; failed_pages := 1; not_found_pages := 1;
          forbidden_pages := 1; start_time := Some (sample_time 0);
          end_time := Some (sample_time 3);
          duration_seconds := Some 3000000%Z |} |}.


(** A page whose own text holds the heading of the template. *)
Definition page_with_heading : PageResult :=
  sample_page "## Content" "Home".

(** What a refused write leaves of the aggregation of one good page. *)
Definition full_disk_result : CrawlResult :=
  {| error := Some (lit "Writing error: [Errno 28] No space left on device");
     file_path := None;
     res_stats :=
       {| successful_pages := 0; failed_pages := 0; not_found_pages := 0;
          forbidden_pages := 0; start_time := Some (sample_time 0);
          end_time := None; duration_seconds := None |} |}.

Definition sample_url : str := lit "http://my-site.example.com:8080/docs".

Definition table_characters : str :=
  [0x2192; 0x2190; 0x2191; 0x2193; 0x2022; 0x2013; 0x2014; 0x2018; 0x2019;
   0x201c; 0x201d; 0x2026; 0x00a0].

(** ** Text the stripper leaves alone *)

(** No backtick, no opening square bracket, no line break, and no two
    spaces in a row. *)
Definition plain (s : str) : Prop :=
  Forall (fun c => c <> 0x60 /\ c <> 0x5B /\ c <> 10) s /\
  contains (lit "  ") s = false.

(** ** States and files, for the statements about whole runs *)

(** The state once [results_to_markdown] has read the clock and set up its
    [stats]. *)
Definition started (E : env) (st : state) : state :=
  {| now_calls := S (now_calls st);
     write_calls := write_calls st;
     fs := fs st;
     stats :=
       {| successful_pages := 0; failed_pages := 0; not_found_pages := 0;
          forbidden_pages := 0; start_time := Some (clock E (now_calls st));
          end_time := None; duration_seconds := None |} |}.

(** Every file but the one at [path] is in [s'] as it is in [s]. *)
Definition unchanged_except (path : str) (s s' : state) : Prop :=
  forall p, p <> path -> fs s' !! p = fs s !! p.

(** A computation that, from any state and however it ends, leaves every
    file but the one at [path] as it was. *)
Definition confined_to (path : str) {A : Type} (m : M A) : Prop :=
  forall st, unchanged_except path st (snd (m st)).

(** The world of [sample_env] in which no file can be opened. *)
Definition read_only_env : env :=
  {| clock := clock sample_env;
     open_error := fun _ => Some (lit "[Errno 30] Read-only file system");
     write_error := fun _ => None;
     makedirs_error := fun _ => None;
     results_directory := results_directory sample_env;
     engine := engine sample_env;
     format_2f := format_2f sample_env |}.

(** ** list_tools

    The handler registered with [@app.list_tools()] returns one [types.Tool];
    its [inputSchema] is a JSON schema of type ["object"].  A property with
    no ["default"] key has [prop_default = None]; [Some VNone] is the
    default [None] of [output_file]. *)

Record ToolProperty := {
  prop_type : str;
  prop_description : str;
  prop_default : option pyval
}.

Record Tool := {
  tool_name : str;
  tool_description : str;
  schema_type : str;
  schema_required : list str;
  schema_properties : list (str * ToolProperty)
}.

Definition crawl_schema : Tool :=
  {| tool_name := lit "crawl";
     tool_description :=
       lit "Crawls a website and saves its content as structured markdown to a file";
     schema_type := lit "object";
     schema_required := [lit "url"];
     schema_properties :=
       [ (lit "url",
          {| prop_type := lit "string"; prop_description := lit "URL to crawl";
             prop_default := None |});
         (lit "max_depth",
          {| prop_type := lit "integer";
             prop_description := lit "Maximum crawling depth";
             prop_default := Some (VInt 2) |});
         (lit "include_external",
          {| prop_type := lit "boolean";
             prop_description := lit "Whether to include external links";
             prop_default := Some (VBool false) |});
         (lit "verbose",
          {| prop_type := lit "boolean";
             prop_description := lit "Enable verbose output";
             prop_default := Some (VBool true) |});
         (lit "output_file",
          {| prop_type := lit "string";
             prop_description :=
               lit "Path to output file (generated if not provided)";
             prop_default := Some VNone |}) ] |}.

Definition list_tools : list Tool := [crawl_schema].

(** The arguments a caller gets by taking every default of the schema. *)
Definition schema_defaults (t : Tool) : gmap str pyval :=
  list_to_map
    (omap (fun kp => match prop_default (snd kp) with
                     | Some d => Some (fst kp, d)
                     | None => None
                     end)
       (schema_properties t)).



(** How many of [results] the classification puts in the class [c]. *)
Definition count_outcome (c : Outcome -> bool) (results : list PageResult) : nat :=
  length (List.filter (fun r => c (classify r)) results).

Definition is_no_content (o : Outcome) : bool :=
  match o with SkippedNoContent => true | _ => false end.
Definition is_not_found (o : Outcome) : bool :=
  match o with SkippedErrorPage NotFound => true | _ => false end.
Definition is_forbidden (o : Outcome) : bool :=
  match o with SkippedErrorPage Forbidden => true | _ => false end.
Definition is_accepted_outcome (o : Outcome) : bool :=
  match o with Accepted _ => true | _ => false end.


(** * Properties *)

(** ** Strings and patterns *)

Lemma utf8_encode_char_ok (c : N) :
  c < 0x110000 -> is_surrogate c = false -> is_Some (utf8_encode_char c).
Proof.
  intros Hc Hs. unfold utf8_encode_char. rewrite Hs.
  destruct (c <? 0x80); [eauto|].
  destruct (c <? 0x800); [eauto|].
  destruct (c <? 0x10000); [eauto|].
  destruct (N.ltb_spec c 0x110000); [eauto|lia].
Qed.

Lemma utf8_encode_ok (s : str) :
  wf_str s -> Forall (fun c => is_surrogate c = false) s ->
  is_Some (utf8_encode s).
Proof.
  unfold wf_str. induction s as [|c s IH]; intros Hwf Hs; simpl; [eauto|].
  inversion Hwf; inversion Hs; subst.
  destruct (utf8_encode_char_ok c) as [b ->]; auto.
  destruct IH as [bs ->]; eauto.
Qed.

Lemma utf8_encode_ascii (s : str) :
  Forall (fun c => c <= 0x7F) s -> is_Some (utf8_encode s).
Proof.
  induction 1 as [|c s Hc _ [bs IH]]; simpl; [eauto|].
  unfold utf8_encode_char.
  destruct (N.ltb_spec c 0x80); [|lia]. rewrite IH. eauto.
Qed.

(** A greedy repetition with no lower bound, followed by nothing, always
    matches, and what it leaves is no longer than its input. *)
Lemma rep_greedy_accepts (p : N -> bool) (g : option str) (s : str) :
  exists rest,
    rep p true 0 s (fun s' => Some (s', g)) = Some (rest, g) /\
    (length rest <= length s)%nat.
Proof.
  induction s as [|c s [rest [IH Hlen]]].
  - exists []. simpl. split; [reflexivity|lia].
  - cbn [rep]. destruct (p c).
    + rewrite IH. exists rest. split; [reflexivity|simpl; lia].
    + exists (c :: s). split; [reflexivity|lia].
Qed.

(** What [re.sub] puts out is made of replacement texts and of characters
    at which the pattern found no match. *)
Lemma sub_from_Forall {St : Type} (P : N -> Prop) (r : regex)
    (repl : St -> str -> option str -> str * St) :
  (forall st m g, Forall P (fst (repl st m g))) ->
  (forall c s,
      match re_match r (c :: s) with
      | Some (rest, _) => (length (c :: s) - length rest = 0)%nat
      | None => True
      end -> P c) ->
  forall s skip st, Forall P (fst (sub_from r repl skip st s)).
Proof.
  intros Hrepl Hkeep. induction s as [|c s IH]; intros skip st.
  - constructor.
  - cbn [sub_from]. destruct skip as [|n]; [|apply IH].
    specialize (Hkeep c s).
    destruct (re_match r (c :: s)) as [[rest g]|].
    + destruct (length (c :: s) - length rest)%nat as [|n] eqn:Hlen.
      * specialize (IH 0%nat st).
        destruct (sub_from r repl 0 st s) as [tl st1]. simpl in *.
        constructor; auto.
      * specialize (Hrepl st (take (S n) (c :: s)) g).
        destruct (repl st (take (S n) (c :: s)) g) as [out st1].
        specialize (IH n st1).
        destruct (sub_from r repl n st1 s) as [tl st2]. simpl in *.
        apply Forall_app; auto.
    + specialize (IH 0%nat st).
      destruct (sub_from r repl 0 st s) as [tl st1]. simpl in *.
      constructor; auto.
Qed.

Lemma strip_non_ascii_is_ascii (t : str) :
  Forall (fun c => c <= 0x7F) (re_sub non_ascii_run (fun _ _ => lit " ") t).
Proof.
  unfold re_sub, re_sub_with. apply sub_from_Forall.
  - intros. change (Forall (fun c => c <= 0x7F) [32]).
    constructor; [lia|constructor].
  - intros c s. unfold re_match, non_ascii_run. cbn [go rep].
    unfold non_ascii at 1. destruct (N.leb_spec c 0x7F) as [Hc|Hc]; [auto|].
    cbn [negb].
    destruct (rep_greedy_accepts non_ascii None s) as [rest [-> Hlen]].
    simpl. lia.
Qed.

(** ** sanitize_text *)

Lemma sanitize_text_encodable (s : str) :
  is_Some (utf8_encode s) -> sanitize_text (VStr s) = s.
Proof. intros [b Hb]. unfold sanitize_text. rewrite Hb. reflexivity. Qed.

Lemma sanitize_text_ascii (x : pyval) :
  x = VNone \/ is_Some (utf8_encode (py_str x)) \/
  Forall (fun c => c <= 0x7F) (sanitize_text x).
Proof.
  destruct x as [|s|z|b]; [left; reflexivity|right..];
    unfold sanitize_text; cbn [py_str];
    match goal with
    | |- is_Some (utf8_encode ?t) \/ _ =>
        destruct (utf8_encode t) eqn:Henc;
          [left; eauto|right; apply strip_non_ascii_is_ascii]
    end.
Qed.

(** C8. [sanitize_text] is idempotent: sanitizing its own output, for any
    input ([None], a string, or a value that is stringified first), gives
    that output again. *)
Theorem sanitize_text_idempotent (x : pyval) :
  sanitize_text (VStr (sanitize_text x)) = sanitize_text x.
Proof.
  destruct (sanitize_text_ascii x) as [-> | [Henc | Hascii]].
  - reflexivity.
  - apply sanitize_text_encodable.
    destruct Henc as [b Hb].
    destruct x as [|s|z|b']; unfold sanitize_text; cbn [py_str] in *;
      rewrite ?Hb; eauto.
  - apply sanitize_text_encodable, utf8_encode_ascii, Hascii.
Qed.

(** C10. A string all of whose characters UTF-8 can encode (no surrogate
    code point) comes back from [sanitize_text] unchanged, the characters of
    the substitution table included: the substitutions and the stripping
    run only when the encoding fails. *)
Theorem sanitize_text_unchanged_when_encodable (s : str) :
  wf_str s -> Forall (fun c => is_surrogate c = false) s ->
  sanitize_text (VStr s) = s.
Proof.
  intros Hwf Hs. apply sanitize_text_encodable, utf8_encode_ok; assumption.
Qed.

Lemma sanitize_text_unchanged_witness :
  wf_str table_characters /\
  Forall (fun c => is_surrogate c = false) table_characters /\
  sanitize_text (VStr table_characters) = table_characters.
Proof.
  assert (Hwf : wf_str table_characters)
    by (unfold wf_str, table_characters; repeat constructor).
  assert (Hs : Forall (fun c => is_surrogate c = false) table_characters)
    by (unfold table_characters; repeat constructor).
  split; [exact Hwf|]. split; [exact Hs|].
  exact (sanitize_text_unchanged_when_encodable table_characters Hwf Hs).
Defined.

(** The other branch: with a lone surrogate in the text the table is applied
    and what is left of non-ASCII is blanked. *)
Example sanitize_text_unencodable :
  sanitize_text (VStr ([0x2192; 0xD800; 0x2014; 0x3042; 0x3042] ++ lit "B")) =
  lit "-> -- B".
Proof. vm_compute. reflexivity. Qed.

(** ** remove_links_from_markdown *)

Example strip_link : remove_links_from_markdown (lit "[hello](http://x.com)") = lit "hello".
Proof. vm_compute. reflexivity. Qed.

Example strip_image_without_alt :
  remove_links_from_markdown (lit "a ![](http://x.com/img.png) b") = lit "a b".
Proof. vm_compute. reflexivity. Qed.

(** C1. On the image [![alt](http://x.com/img.png)] the function returns
    [!alt], not the empty string: the link substitution, which runs first,
    matches the bracket part of the image and keeps the alt text, so the
    image substitution finds nothing left to remove. *)
Theorem strip_image_with_alt_leaves_alt :
  remove_links_from_markdown (lit "![alt](http://x.com/img.png)") = lit "!alt" /\
  re_sub link_re (fun _ g => default [] g) (lit "![alt](http://x.com/img.png)")
    = lit "!alt" /\
  re_sub image_re (fun _ _ => []) (lit "![alt](http://x.com/img.png)") = [].
Proof. vm_compute. repeat split; reflexivity. Qed.

Example strip_keeps_code_block :
  remove_links_from_markdown (lit "a   [t](u) ```[t](u)  ![i](v)``` ![i](v)b") =
  lit "a t ```[t](u)  ![i](v)``` !ib".
Proof. vm_compute. reflexivity. Qed.

Example strip_drops_code_block_in_link_target :
  remove_links_from_markdown (lit "[a](```b```)") = lit "a".
Proof. vm_compute. reflexivity. Qed.

(** C2. A fenced block whose content reads like the placeholder of a later
    block is not left as it was: the two blocks [```__CODE_BLOCK_1__```] and
    [```x```] come back with the content of the first replaced by the
    second block, so the first block no longer occurs in the output. *)
Theorem strip_alters_code_block_on_placeholder_text :
  remove_links_from_markdown (lit "```__CODE_BLOCK_1__``` ```x```") =
    lit "``````x`````` ```x```" /\
  contains (lit "```__CODE_BLOCK_1__```")
    (remove_links_from_markdown (lit "```__CODE_BLOCK_1__``` ```x```")) = false /\
  fst (re_sub_with code_block_re save_code_block []
         (lit "```__CODE_BLOCK_1__``` ```x```")) =
    lit "__CODE_BLOCK_0__ __CODE_BLOCK_1__".
Proof. vm_compute. repeat split; reflexivity. Qed.

(** ** Counting occurrences *)

Lemma starts_with_app_sep (p a b : str) (c : N) :
  Forall (fun x => x <> c) p ->
  starts_with p (a ++ c :: b) = starts_with p a.
Proof.
  intros Hp. revert p Hp. induction a as [|y a IH]; intros [|x p] Hp; simpl; auto.
  - inversion Hp; subst. destruct (N.eqb_spec x c); [contradiction|reflexivity].
  - inversion Hp; subst. rewrite IH; auto.
Qed.

Lemma occurrences_app_sep (p a b : str) (c : N) :
  p <> [] -> Forall (fun x => x <> c) p ->
  occurrences p (a ++ c :: b) = (occurrences p a + occurrences p (c :: b))%nat.
Proof.
  intros Hne Hp. induction a as [|y a IH].
  - destruct p; [contradiction|reflexivity].
  - change (occurrences p ((y :: a) ++ c :: b))
      with ((if starts_with p ((y :: a) ++ c :: b) then 1 else 0)
            + occurrences p (a ++ c :: b))%nat.
    change (occurrences p (y :: a))
      with ((if starts_with p (y :: a) then 1 else 0) + occurrences p a)%nat.
    rewrite starts_with_app_sep by assumption. rewrite IH. lia.
Qed.

Lemma occurrences_without_first (p s : str) (c : N) :
  Forall (fun x => x <> c) s -> occurrences (c :: p) s = 0%nat.
Proof.
  induction 1 as [|x s Hx _ IH]; [reflexivity|].
  cbn [occurrences starts_with]. rewrite IH.
  destruct (N.eqb_spec c x); [congruence|reflexivity].
Qed.

Lemma occurrences_contains (p s : str) :
  contains p s = false -> occurrences p s = 0%nat.
Proof.
  induction s as [|x s IH]; cbn [contains occurrences]; intros H;
    apply orb_false_iff in H as [-> H]; [reflexivity|].
  rewrite IH; auto.
Qed.

Lemma contains_occurrences (p s : str) :
  contains p s = true -> (1 <= occurrences p s)%nat.
Proof.
  induction s as [|x s IH]; cbn [contains occurrences]; intros H.
  - rewrite orb_false_r in H. rewrite H. lia.
  - destruct (starts_with p (x :: s)); [lia|]. simpl in H. specialize (IH H). lia.
Qed.

Lemma heading_chars : heading = [35; 35; 32; 67; 111; 110; 116; 101; 110; 116].
Proof. reflexivity. Qed.

Lemma occurrences_heading_line (l rest : str) :
  occurrences heading (l ++ 10 :: rest) =
  (occurrences heading l + occurrences heading rest)%nat.
Proof.
  rewrite occurrences_app_sep.
  - reflexivity.
  - rewrite heading_chars. discriminate.
  - rewrite heading_chars. repeat (constructor; [lia|]). constructor.
Qed.

Lemma md_content_lines (title u depth timestamp body rest : str) :
  md_content title u depth timestamp body ++ rest =
  10 :: (lit "# " ++ title) ++ 10 :: [] ++ 10 :: lit "## URL" ++ 10 :: u ++ 10 ::
  [] ++ 10 :: lit "## Metadata" ++ 10 :: (lit "- Depth: " ++ depth) ++ 10 ::
  (lit "- Timestamp: " ++ timestamp) ++ 10 :: [] ++ 10 :: lit "## Content" ++ 10 ::
  body ++ 10 :: [] ++ 10 :: lit "---" ++ 10 :: rest.
Proof. unfold md_content, nl. repeat rewrite <- app_assoc. reflexivity. Qed.

(** One page section holds the heading of the template once, next to what
    its values bring in. *)
Lemma occurrences_heading_section (title u depth timestamp body rest : str) :
  occurrences heading (md_content title u depth timestamp body ++ rest) =
  (1 + occurrences heading title + occurrences heading u
   + occurrences heading depth + occurrences heading timestamp
   + occurrences heading body + occurrences heading rest)%nat.
Proof.
  rewrite md_content_lines.
  change (occurrences heading (10 :: ?x)) with (occurrences heading x).
  rewrite !occurrences_heading_line.
  change (occurrences heading (lit "# " ++ title)) with (occurrences heading title).
  change (occurrences heading (lit "- Depth: " ++ depth))
    with (occurrences heading depth).
  change (occurrences heading (lit "- Timestamp: " ++ timestamp))
    with (occurrences heading timestamp).
  change (occurrences heading []) with 0%nat.
  change (occurrences heading (lit "## URL")) with 0%nat.
  change (occurrences heading (lit "## Metadata")) with 0%nat.
  change (occurrences heading (lit "## Content")) with 1%nat.
  change (occurrences heading (lit "---")) with 0%nat.
  lia.
Qed.

(** ** Dates *)

Lemma string_of_uint_digits (d : Decimal.uint) :
  Forall (fun c => is_digit c = true) (lit (NilEmpty.string_of_uint d)).
Proof. induction d; simpl; constructor; auto. Qed.

Lemma str_of_N_digits (n : N) :
  Forall (fun c => is_digit c = true) (str_of_N n).
Proof.
  unfold str_of_N, NilZero.string_of_uint.
  destruct (N.to_uint n) as [|d|d|d|d|d|d|d|d|d|d];
    [repeat constructor|apply string_of_uint_digits..].
Qed.

Lemma pad_digits (w : nat) (n : N) :
  Forall (fun c => is_digit c = true) (pad w n).
Proof.
  unfold pad. apply Forall_app. split; [|apply str_of_N_digits].
  induction (w - length (str_of_N n))%nat; simpl; constructor; auto.
Qed.

Lemma pad_length_upto (w : nat) (b : N) :
  forallb (fun k => Nat.eqb (length (pad w (N.of_nat k))) w)
    (seq 0 (N.to_nat b)) = true ->
  forall n, n < b -> length (pad w n) = w.
Proof.
  intros H n Hn. rewrite forallb_forall in H.
  specialize (H (N.to_nat n)). rewrite N2Nat.id in H.
  apply Nat.eqb_eq, H, in_seq. lia.
Qed.

Lemma pad_2_length (n : N) : n < 100 -> length (pad 2 n) = 2%nat.
Proof. apply (pad_length_upto 2 100). vm_compute. reflexivity. Qed.

Lemma pad_4_length (n : N) : n < 10000 -> length (pad 4 n) = 4%nat.
Proof. apply (pad_length_upto 4 10000). vm_compute. reflexivity. Qed.

(** The compact time stamp is eight digits, an underscore, six digits. *)
Lemma strftime_compact_shape (d : datetime) :
  year d < 10000 -> month d < 100 -> day d < 100 ->
  hour d < 100 -> minute d < 100 -> second d < 100 ->
  exists date time,
    strftime_compact d = date ++ lit "_" ++ time /\
    length date = 8%nat /\ length time = 6%nat /\
    Forall (fun c => is_digit c = true) date /\
    Forall (fun c => is_digit c = true) time.
Proof.
  intros Hy Hm Hd Hh Hmi Hs.
  exists (pad 4 (year d) ++ pad 2 (month d) ++ pad 2 (day d)),
         (pad 2 (hour d) ++ pad 2 (minute d) ++ pad 2 (second d)).
  split; [unfold strftime_compact; rewrite <- !app_assoc; reflexivity|].
  rewrite !length_app, pad_4_length, !pad_2_length by assumption.
  rewrite !Forall_app. repeat split; try reflexivity; apply pad_digits.
Qed.

Lemma isoformat_chars (d : datetime) :
  Forall (fun c => c <> 35) (isoformat d).
Proof.
  assert (Hpad : forall w n, Forall (fun c => c <> 35) (pad w n)).
  { intros w n. eapply Forall_impl; [apply pad_digits|].
    intros c Hc ->. discriminate Hc. }
  assert (Hlit : forall c, c <> 35 -> Forall (fun c => c <> 35) [c])
    by (intros; constructor; [assumption|constructor]).
  unfold isoformat. rewrite !Forall_app.
  repeat split; try apply Hpad; try (apply Hlit; discriminate).
  destruct (microsecond d =? 0); [constructor|].
  rewrite Forall_app. split; [apply Hlit; discriminate|apply Hpad].
Qed.

Lemma occurrences_heading_isoformat (d : datetime) :
  occurrences heading (isoformat d) = 0%nat.
Proof. apply occurrences_without_first, isoformat_chars. Qed.

(** ** The loop of results_to_markdown *)

Lemma py_in_str (i s : str) (st : state) :
  py_in i (VStr s) st = (Ok (contains i s), st).
Proof. reflexivity. Qed.

Lemma any_in_str (inds : list str) (s : str) (st : state) :
  any_in inds (VStr s) st = (Ok (existsb (fun i => contains i s) inds), st).
Proof.
  induction inds as [|i inds IH]; [reflexivity|].
  cbn [any_in existsb]. unfold bind. cbn [py_in ret].
  destruct (contains i s); [reflexivity|apply IH].
Qed.

Lemma any_in_not_str (v : pyval) (st : state) :
  (forall s, v <> VStr s) ->
  exists e, any_in error_indicators v st = (Raise e, st).
Proof.
  intros Hv. destruct v; [| exfalso; eapply Hv; reflexivity | |];
    eexists; reflexivity.
Qed.

Lemma utf8_encode_app (a b : str) :
  utf8_encode (a ++ b) =
  match utf8_encode a, utf8_encode b with
  | Some x, Some y => Some (x ++ y)
  | _, _ => None
  end.
Proof.
  induction a as [|c a IH]; cbn [app utf8_encode].
  - destruct (utf8_encode b); reflexivity.
  - rewrite IH. destruct (utf8_encode_char c); [|reflexivity].
    destruct (utf8_encode a); [|reflexivity].
    destruct (utf8_encode b); [|reflexivity].
    rewrite app_assoc. reflexivity.
Qed.

Lemma printable_app (a b : str) :
  is_Some (utf8_encode a) -> is_Some (utf8_encode b) ->
  is_Some (utf8_encode (a ++ b)).
Proof. intros [x Hx] [y Hy]. rewrite utf8_encode_app, Hx, Hy. eauto. Qed.

Lemma print_ok (text : str) (st : state) :
  is_Some (utf8_encode text) -> print text st = (Ok tt, st).
Proof. intros [b Hb]. unfold print. rewrite Hb. reflexivity. Qed.

(** The loop body against the classification: on a normal end the counter
    of the outcome went up by one and a section was appended exactly for an
    accepted result; when it raises, counters and files are as before. *)
Lemma process_result_cases (E : env) (path : str) (r : PageResult) (st : state) :
  match process_result E path r st with
  | (Ok _, st') =>
      match classify r with
      | Accepted body =>
          exists t,
            stats st' = incr_successful (stats st) /\
            fs st' = <[path := default [] (fs st !! path) ++
                         md_content (py_str (title_of r)) (url r)
                           (py_str (depth_of r)) (isoformat t) body]> (fs st)
      | SkippedNoContent =>
          stats st' = incr_failed (stats st) /\ fs st' = fs st
      | SkippedErrorPage NotFound =>
          stats st' = incr_not_found (stats st) /\ fs st' = fs st
      | SkippedErrorPage Forbidden =>
          stats st' = incr_forbidden (stats st) /\ fs st' = fs st
      | Aborts => False
      end
  | (Raise _, st') => stats st' = stats st /\ fs st' = fs st
  end.
Proof.
  unfold process_result, classify, title_of, depth_of.
  destruct (py_or (markdown r) (text r)) as [[|c t]|];
    [unfold bind, print; destruct (utf8_encode _); split; reflexivity
    |
    |unfold bind, print; destruct (utf8_encode _); split; reflexivity].
  destruct (contains (lit "404 Not Found") (c :: t));
    destruct (contains (lit "403 Forbidden") (c :: t));
    destruct (contains (lit "nginx") (c :: t));
    cbn [orb andb];
    try solve [unfold bind, print; destruct (utf8_encode _); split; reflexivity].
  all: destruct (metadata r) as [meta|]; [|split; reflexivity].
  all: unfold bind at 1; cbn [ret]; unfold bind at 1; cbn [now default].
  all: change (id meta) with meta.
  all: destruct (default (VStr (lit "Untitled page")) (meta !! lit "title"))
         as [|title|z|b]; try (split; reflexivity).
  all: unfold bind at 1; rewrite any_in_str.
  all: destruct (existsb (fun i => contains i title) error_indicators).
  all: try solve [unfold bind, print;
                  destruct (utf8_encode _); [|split; reflexivity];
                  rewrite !py_in_str;
                  destruct (contains (lit "404") title); cbn [ret];
                  rewrite ?py_in_str;
                  destruct (contains (lit "Not Found") title);
                  split; reflexivity].
  all: unfold bind, write; cbn [py_str].
  all: destruct (utf8_encode _); [|split; reflexivity].
  all: destruct (write_error E _); [split; reflexivity|].
  all: eexists; split; reflexivity.
Qed.

Lemma is_accepted_classify (r : PageResult) :
  is_accepted r = match classify r with Accepted _ => true | _ => false end.
Proof. reflexivity. Qed.

Lemma total_pages_incr (s : Stats) :
  total_pages (incr_successful s) = S (total_pages s) /\
  total_pages (incr_failed s) = S (total_pages s) /\
  total_pages (incr_not_found s) = S (total_pages s) /\
  total_pages (incr_forbidden s) = S (total_pages s).
Proof. unfold total_pages; simpl; lia. Qed.

(** What the loop as a whole does to the counters and to the file. *)
Lemma for_each_cases (E : env) (path : str) (results : list PageResult) :
  forall st,
  match for_each (process_result E path) results st with
  | (Ok _, st') =>
      successful_pages (stats st') =
        (successful_pages (stats st) + length (List.filter is_accepted results))%nat /\
      total_pages (stats st') = (total_pages (stats st) + length results)%nat /\
      start_time (stats st') = start_time (stats st) /\
      forall content, fs st !! path = Some content ->
        exists sections,
          fs st' !! path = Some (content ++ concat sections) /\
          Forall2 section_of (List.filter is_accepted results) sections /\
          (length sections <= occurrences heading (concat sections))%nat /\
          (Forall free_of_heading results ->
           occurrences heading (concat sections) = length sections)
  | (Raise _, st') =>
      (total_pages (stats st') <= total_pages (stats st) + length results)%nat /\
      start_time (stats st') = start_time (stats st) /\
      end_time (stats st') = end_time (stats st) /\
      duration_seconds (stats st') = duration_seconds (stats st)
  end.
Proof.
  induction results as [|r rs IH]; intros st.
  - cbn. repeat split; try lia. intros content Hc. exists [].
    cbn. rewrite app_nil_r. repeat split; auto using Forall2_nil.
  - cbn [for_each]. unfold bind.
    pose proof (process_result_cases E path r st) as Hr.
    destruct (process_result E path r st) as [[[]|e] st1].
    + specialize (IH st1).
      destruct (for_each (process_result E path) rs st1) as [[[]|e] st2].
      * destruct IH as (Hs & Ht & Hst & Hfs).
        cbn [List.filter length]. rewrite is_accepted_classify.
        pose proof (total_pages_incr (stats st)) as (T1 & T2 & T3 & T4).
        destruct (classify r) as [body| |[|]|] eqn:Hc; [| | | |contradiction].
        -- destruct Hr as (t & Hr & Hf). rewrite Hr in *.
           repeat split; [cbn in *; lia|lia|assumption|].
           intros content Hcont.
           destruct (Hfs (content ++ md_content (py_str (title_of r)) (url r)
                            (py_str (depth_of r)) (isoformat t) body))
             as (secs & Hl & Hlen & Hge & Heq).
           { rewrite Hf, Hcont. apply lookup_insert_eq. }
           exists (md_content (py_str (title_of r)) (url r)
                     (py_str (depth_of r)) (isoformat t) body :: secs).
           cbn [concat length]. rewrite occurrences_heading_section.
           split; [rewrite Hl, <- app_assoc; reflexivity|].
           split; [constructor; [exists t, body; auto|assumption]|].
           split; [lia|].
           intros Hall. inversion Hall as [|? ? Hfree Hrest]; subst.
           unfold free_of_heading in Hfree. rewrite Hc in Hfree.
           destruct Hfree as (F1 & F2 & F3 & F4).
           rewrite (occurrences_contains _ _ F1), (occurrences_contains _ _ F2),
             (occurrences_contains _ _ F3), (occurrences_contains _ _ F4),
             occurrences_heading_isoformat, (Heq Hrest).
           lia.
        -- destruct Hr as (Hr & Hf). rewrite Hr, Hf in *.
           repeat split; [cbn in *; lia|lia|assumption|].
           intros content Hcont. destruct (Hfs content Hcont) as (secs & ? & ? & ? & Heq).
           exists secs. repeat split; auto. intros Hall. apply Heq.
           inversion Hall; assumption.
        -- destruct Hr as (Hr & Hf). rewrite Hr, Hf in *.
           repeat split; [cbn in *; lia|lia|assumption|].
           intros content Hcont. destruct (Hfs content Hcont) as (secs & ? & ? & ? & Heq).
           exists secs. repeat split; auto. intros Hall. apply Heq.
           inversion Hall; assumption.
        -- destruct Hr as (Hr & Hf). rewrite Hr, Hf in *.
           repeat split; [cbn in *; lia|lia|assumption|].
           intros content Hcont. destruct (Hfs content Hcont) as (secs & ? & ? & ? & Heq).
           exists secs. repeat split; auto. intros Hall. apply Heq.
           inversion Hall; assumption.
      * destruct IH as (Ht & Hst & Het & Hd).
        pose proof (total_pages_incr (stats st)) as (T1 & T2 & T3 & T4).
        cbn [length].
        destruct (classify r) as [body| |[|]|]; [| | | |contradiction].
        -- destruct Hr as (t & Hr & _). rewrite Hr in *. repeat split; auto; lia.
        -- destruct Hr as (Hr & _). rewrite Hr in *. repeat split; auto; lia.
        -- destruct Hr as (Hr & _). rewrite Hr in *. repeat split; auto; lia.
        -- destruct Hr as (Hr & _). rewrite Hr in *. repeat split; auto; lia.
    + destruct Hr as (Hr & _). rewrite Hr. cbn [length]. repeat split; lia.
Qed.

(** ** results_to_markdown *)

(** The function always returns a result dict; what it holds on the two
    ways out. *)
Lemma results_to_markdown_cases (E : env) (results : list PageResult)
    (path : str) (st : state) :
  exists r st',
    results_to_markdown E results path st = (Ok r, st') /\
    match error r with
    | None =>
        file_path r = Some path /\
        successful_pages (res_stats r) = length (List.filter is_accepted results) /\
        total_pages (res_stats r) = length results /\
        (exists e, end_time (res_stats r) = Some e /\
           duration_seconds (res_stats r) =
             Some (sub_microseconds e (clock E (now_calls st)))) /\
        exists sections,
          fs st' !! path = Some (concat sections) /\
          Forall2 section_of (List.filter is_accepted results) sections /\
          (length sections <= occurrences heading (concat sections))%nat /\
          (Forall free_of_heading results ->
           occurrences heading (concat sections) = length sections)
    | Some msg =>
        file_path r = None /\
        (total_pages (res_stats r) <= length results)%nat /\
        start_time (res_stats r) = Some (clock E (now_calls st)) /\
        end_time (res_stats r) = None /\
        duration_seconds (res_stats r) = None
    end.
Proof.
  unfold results_to_markdown, try_except.
  unfold bind at 1. cbn [now]. unfold bind at 1. cbn [update_stats].
  unfold bind at 1. unfold open_w at 1.
  destruct (open_error E path) as [msg|].
  - cbn. do 2 eexists. split; [reflexivity|]. cbn. repeat split; lia.
  - unfold bind at 1.
    match goal with
    | |- context [for_each _ _ ?s] =>
        pose proof (for_each_cases E path results s) as Hloop;
        destruct (for_each (process_result E path) results s) as [[[]|e] st1]
    end.
    + destruct Hloop as (Hs & Ht & Hst & Hfs).
      cbn in Hs, Ht, Hst.
      destruct (Hfs []) as (secs & Hl & Hlen & Hge & Heq).
      { cbn. apply lookup_insert_eq. }
      cbn. rewrite Hst. cbn.
      do 2 eexists. split; [reflexivity|]. cbn.
      repeat split; try assumption.
      * eexists. split; reflexivity.
      * exists secs. repeat split; assumption.
    + destruct Hloop as (Ht & Hst & Het & Hd). cbn in Ht, Hst, Het, Hd.
      cbn. do 2 eexists. split; [reflexivity|]. cbn.
      repeat split; assumption.
Qed.

(** C3. When the aggregation runs to its end, the four counters add up to
    the number of results: every pass through the loop body that ends
    normally raises exactly one of them by one. *)
Theorem stats_buckets_partition (E : env) (results : list PageResult)
    (path : str) (st st' : state) (r : CrawlResult) :
  results_to_markdown E results path st = (Ok r, st') ->
  error r = None ->
  (successful_pages (res_stats r) + failed_pages (res_stats r)
   + not_found_pages (res_stats r) + forbidden_pages (res_stats r))%nat
  = length results /\
  forall p s s',
    process_result E path p s = (Ok tt, s') ->
    stats s' = incr_successful (stats s) \/ stats s' = incr_failed (stats s) \/
    stats s' = incr_not_found (stats s) \/ stats s' = incr_forbidden (stats s).
Proof.
  intros Hrun Herr. split.
  - destruct (results_to_markdown_cases E results path st) as (r0 & st0 & Heq & H).
    rewrite Hrun in Heq. injection Heq as <- <-. rewrite Herr in H.
    destruct H as (_ & _ & Ht & _). exact Ht.
  - intros p s s' Hp. pose proof (process_result_cases E path p s) as H.
    rewrite Hp in H.
    destruct (classify p) as [body| |[|]|]; [| | | |contradiction].
    + destruct H as (t & H & _). auto.
    + destruct H as (H & _). auto.
    + destruct H as (H & _). auto.
    + destruct H as (H & _). auto.
Qed.

Lemma stats_buckets_partition_witness :
  let run := results_to_markdown sample_env sample_pages (lit "out.md")
               initial_state in
  run = (Ok sample_result, snd run) /\
  error sample_result = None /\
  (successful_pages (res_stats sample_result) + failed_pages (res_stats sample_result)
   + not_found_pages (res_stats sample_result)
   + forbidden_pages (res_stats sample_result))%nat = length sample_pages.
Proof.
  intros run.
  assert (Hrun : run = (Ok sample_result, snd run)) by (vm_compute; reflexivity).
  split; [exact Hrun|]. split; [reflexivity|].
  exact (proj1 (stats_buckets_partition sample_env sample_pages (lit "out.md")
                  initial_state (snd run) sample_result Hrun eq_refl)).
Defined.

(** Whenever the aggregation fails, the [stats] it hands back have no
    [end_time] and no [duration_seconds]. *)
Lemma aggregator_failure_has_no_duration (E : env) (results : list PageResult)
    (path : str) (st st' : state) (r : CrawlResult) :
  results_to_markdown E results path st = (Ok r, st') ->
  error r <> None ->
  file_path r = None /\ end_time (res_stats r) = None /\
  duration_seconds (res_stats r) = None.
Proof.
  intros Hrun Herr.
  destruct (results_to_markdown_cases E results path st) as (r0 & st0 & Heq & H).
  rewrite Hrun in Heq. injection Heq as <- <-.
  destruct (error r); [|contradiction]. tauto.
Qed.

(** When the aggregation succeeds the duration is there: the last reading
    of the clock minus the first. *)
Lemma aggregator_success_duration (E : env) (results : list PageResult)
    (path : str) (st st' : state) (r : CrawlResult) :
  results_to_markdown E results path st = (Ok r, st') ->
  error r = None ->
  exists e, end_time (res_stats r) = Some e /\
    duration_seconds (res_stats r) =
      Some (sub_microseconds e (clock E (now_calls st))).
Proof.
  intros Hrun Herr.
  destruct (results_to_markdown_cases E results path st) as (r0 & st0 & Heq & H).
  rewrite Hrun in Heq. injection Heq as <- <-. rewrite Herr in H. tauto.
Qed.

(** C4. With a disk that refuses the write, the aggregation of one good page
    returns a failure whose [stats] have no [duration_seconds] key (and no
    [end_time]): the exception skips the lines that set them. *)
Theorem write_failure_stats_lack_duration :
  fst (results_to_markdown full_disk_env [sample_page "hello" "Home"]
         (lit "out.md") initial_state) = Ok full_disk_result /\
  duration_seconds (res_stats full_disk_result) = None.
Proof. split; [vm_compute; reflexivity|reflexivity]. Qed.

(** The failure built by [crawl_and_output_to_markdown] when the engine
    raises does carry a duration, 0. *)
Lemma engine_failure_has_zero_duration (E : env) (start_url : str)
    (max_depth include_external verbose : pyval) (f : str) (st : state) (e : exn) :
  f <> [] ->
  engine E start_url
    {| cfg_max_depth := max_depth; cfg_include_external := include_external;
       cfg_verbose := verbose |} = inl e ->
  exists r,
    crawl_and_output_to_markdown E start_url max_depth include_external verbose
      (Some f) st = (Ok r, st) /\
    error r = Some (lit "Crawling error: " ++ exn_msg e) /\
    duration_seconds (res_stats r) = Some 0%Z.
Proof.
  intros Hf He. destruct f as [|c f]; [contradiction|].
  unfold crawl_and_output_to_markdown, bind, try_except. cbn [ret].
  rewrite He. eexists. split; [reflexivity|]. split; reflexivity.
Qed.




(** C6 as stated fails: one accepted page whose text is ["## Content"] gives
    [successful_pages = 1] and an artifact with two occurrences of the
    heading, the one of the template and the one of the page. *)
Lemma heading_in_page_text_counted_twice :
  let run := results_to_markdown sample_env [page_with_heading] (lit "out.md")
               initial_state in
  length (List.filter is_accepted [page_with_heading]) = 1%nat /\
  (exists r, fst run = Ok r /\ error r = None /\
             successful_pages (res_stats r) = 1%nat) /\
  (exists content, fs (snd run) !! lit "out.md" = Some content /\
                   occurrences heading content = 2%nat).
Proof.
  intros run. split; [vm_compute; reflexivity|]. split.
  - eexists. split; [vm_compute; reflexivity|]. split; reflexivity.
  - eexists. split; [vm_compute; reflexivity|]. vm_compute. reflexivity.
Qed.

(** C6, amended. When the aggregation of results of which [k] are accepted
    succeeds, [successful_pages] is [k] and the artifact is the sections of
    the accepted results, in their order and nothing else; it holds the
    heading ["## Content"] at least [k] times, and exactly [k] times when no
    accepted result has the heading in its title, URL, depth or stripped
    text. *)
Theorem accepted_pages_sections (E : env) (results : list PageResult)
    (path : str) (st st' : state) (r : CrawlResult) :
  results_to_markdown E results path st = (Ok r, st') ->
  error r = None ->
  let k := length (List.filter is_accepted results) in
  successful_pages (res_stats r) = k /\
  exists sections,
    fs st' !! path = Some (concat sections) /\
    Forall2 section_of (List.filter is_accepted results) sections /\
    (k <= occurrences heading (concat sections))%nat /\
    (Forall free_of_heading results ->
     occurrences heading (concat sections) = k).
Proof.
  intros Hrun Herr k.
  destruct (results_to_markdown_cases E results path st) as (r0 & st0 & Heq & H).
  rewrite Hrun in Heq. injection Heq as <- <-. rewrite Herr in H.
  destruct H as (_ & Hs & _ & _ & secs & Hfs & Hsec & Hge & Hex).
  split; [exact Hs|]. exists secs.
  pose proof (Forall2_length _ _ _ Hsec) as Hlen. fold k in Hlen.
  rewrite Hlen. auto.
Qed.

Lemma accepted_pages_sections_witness :
  let run := results_to_markdown sample_env sample_pages (lit "out.md")
               initial_state in
  run = (Ok sample_result, snd run) /\
  error sample_result = None /\
  Forall free_of_heading sample_pages /\
  length (List.filter is_accepted sample_pages) = 1%nat /\
  successful_pages (res_stats sample_result) = 1%nat /\
  exists content,
    fs (snd run) !! lit "out.md" = Some content /\
    occurrences heading content = 1%nat.
Proof.
  intros run.
  assert (Hrun : run = (Ok sample_result, snd run)) by (vm_compute; reflexivity).
  assert (Hfree : Forall free_of_heading sample_pages)
    by (repeat constructor; vm_compute; reflexivity).
  assert (Hk : length (List.filter is_accepted sample_pages) = 1%nat)
    by (vm_compute; reflexivity).
  destruct (accepted_pages_sections sample_env sample_pages (lit "out.md")
              initial_state (snd run) sample_result Hrun eq_refl)
    as (Hs & secs & Hfs & _ & _ & Hocc).
  split; [exact Hrun|]. split; [reflexivity|]. split; [exact Hfree|].
  split; [exact Hk|]. split; [reflexivity|].
  exists (concat secs). split; [exact Hfs|].
  exact (eq_trans (Hocc Hfree) Hk).
Defined.

(** ** The output file *)

Lemma replace_char (c d : N) (s : str) :
  replace [c] [d] s = List.map (fun x => if x =? c then d else x) s.
Proof.
  unfold replace. induction s as [|x s IH]; [reflexivity|].
  cbn [replace_from starts_with List.map length Nat.sub].
  rewrite andb_true_r, N.eqb_sym.
  destruct (x =? c); cbn [app]; rewrite IH; reflexivity.
Qed.

Lemma generate_filename_from_url_dots (E : env) (start_url netloc : str)
    (st : state) :
  urlparse_netloc start_url = Ok netloc ->
  fst (generate_filename_from_url E start_url st) =
  Ok (lit "crawl_" ++ List.map (fun c => if c =? 0x2E then 0x5F else c) netloc
      ++ lit "_" ++ strftime_compact (clock E (now_calls st)) ++ lit ".md").
Proof.
  intros Hn. unfold generate_filename_from_url, bind. rewrite Hn.
  cbn [now ret fst].
  change (lit ".") with [0x2E]. change (lit "_") with [0x5F].
  rewrite replace_char. reflexivity.
Qed.

(** Once the output path is fixed, a successful run reports that path. *)
Lemma crawl_reports_path (E : env) (start_url path : str) (config : CrawlConfig)
    (handler : exn -> M CrawlResult) (st st' : state) (r : CrawlResult) :
  (forall e s r' s', handler e s = (Ok r', s') -> error r' <> None) ->
  try_except
    (results <- (fun st => (match engine E start_url config with
                            | inl e => Raise e
                            | inr rs => Ok rs
                            end, st)) ;;
     makedirs E path ;;;
     results_to_markdown E results path)
    handler st = (Ok r, st') ->
  error r = None ->
  file_path r = Some path.
Proof.
  intros Hh Hrun Herr. unfold try_except, bind in Hrun.
  destruct (engine E start_url config) as [e|rs].
  - apply Hh in Hrun. contradiction.
  - unfold makedirs in Hrun. destruct (makedirs_error E path).
    + apply Hh in Hrun. contradiction.
    + destruct (results_to_markdown_cases E rs path st) as (r0 & st0 & Heq & H).
      unfold results_to_markdown, try_except, bind in Heq, Hrun.
      rewrite Heq in Hrun. injection Hrun as <- <-.
      rewrite Herr in H. tauto.
Qed.

(** C7 as stated fails: the host of [http://my-site.example.com:8080/docs]
    keeps its hyphen and its colon in the file name; only the dots become
    underscores. *)
Lemma filename_keeps_hyphen_and_colon :
  urlparse_netloc sample_url = Ok (lit "my-site.example.com:8080") /\
  fst (generate_filename_from_url sample_env sample_url initial_state) =
    Ok (lit "crawl_my-site_example_com:8080_20240309_070500.md") /\
  spec_host_part (lit "my-site.example.com:8080") = lit "my_site_example_com_8080" /\
  replace (lit ".") (lit "_") (lit "my-site.example.com:8080")
    <> spec_host_part (lit "my-site.example.com:8080").
Proof.
  repeat split; try (vm_compute; reflexivity).
  vm_compute. discriminate.
Qed.

(** C7, amended. The derived file name is [crawl_], the netloc of the URL
    with each dot turned into an underscore and every other character kept,
    [_], the time as [%Y%m%d_%H%M%S], and [.md].  A run without an output
    file (absent or empty) that succeeds reports that name under the results
    directory; a run with a non-empty output file that succeeds reports the
    given path unchanged. *)
Theorem output_file_resolution (E : env) (start_url : str)
    (max_depth include_external verbose : pyval) (st st' : state)
    (r : CrawlResult) (netloc : str) (output_file : option str) :
  urlparse_netloc start_url = Ok netloc ->
  crawl_and_output_to_markdown E start_url max_depth include_external verbose
    output_file st = (Ok r, st') ->
  error r = None ->
  let derived :=
    lit "crawl_" ++ List.map (fun c => if c =? 0x2E then 0x5F else c) netloc
    ++ lit "_" ++ strftime_compact (clock E (now_calls st)) ++ lit ".md" in
  fst (generate_filename_from_url E start_url st) = Ok derived /\
  file_path r =
    Some (match output_file with
          | Some (c :: f) => c :: f
          | _ => path_join (results_directory E) derived
          end).
Proof.
  intros Hn Hrun Herr derived.
  pose proof (generate_filename_from_url_dots E start_url netloc st Hn) as Hname.
  split; [exact Hname|].
  assert (Hh : forall (e : exn) (s : state) (r' : CrawlResult) (s' : state),
             ret (A:=CrawlResult)
               {| error := Some (lit "Crawling error: " ++ exn_msg e);
                  file_path := None;
                  res_stats :=
                    {| successful_pages := 0; failed_pages := 0;
                       not_found_pages := 0; forbidden_pages := 0;
                       start_time := None; end_time := None;
                       duration_seconds := Some 0%Z |} |} s = (Ok r', s') ->
             error r' <> None).
  { intros e s r' s' H. injection H as <- _. discriminate. }
  unfold crawl_and_output_to_markdown in Hrun. unfold bind at 1 in Hrun.
  assert (Hderive :
    (dir <- get_results_directory E ;;
     name <- generate_filename_from_url E start_url ;;
     ret (path_join dir name)) st =
    match makedirs_error E (results_directory E) with
    | Some msg => (Raise (OSError msg), st)
    | None => (Ok (path_join (results_directory E) derived),
               snd (generate_filename_from_url E start_url st))
    end).
  { unfold get_results_directory, bind, makedirs.
    destruct (makedirs_error E (results_directory E)); [reflexivity|].
    cbn [ret]. destruct (generate_filename_from_url E start_url st) as [res s1].
    cbn [fst snd] in *. rewrite Hname. reflexivity. }
  destruct output_file as [[|c f]|].
  - rewrite Hderive in Hrun.
    destruct (makedirs_error E (results_directory E)); [discriminate|].
    eapply crawl_reports_path; [exact Hh|exact Hrun|exact Herr].
  - cbn [ret] in Hrun. eapply crawl_reports_path; [exact Hh|exact Hrun|exact Herr].
  - rewrite Hderive in Hrun.
    destruct (makedirs_error E (results_directory E)); [discriminate|].
    eapply crawl_reports_path; [exact Hh|exact Hrun|exact Herr].
Qed.

Lemma output_file_resolution_witness :
  let run :=
    crawl_and_output_to_markdown sample_env sample_url (VInt 2) (VBool false)
      (VBool true) None initial_state in
  let r :=
    {| error := None;
       file_path :=
         Some (lit "/srv/app/crawl_results/crawl_my-site_example_com:8080_20240309_070500.md");
       res_stats :=
         {| successful_pages := 0; failed_pages := 0; not_found_pages := 0;
            forbidden_pages := 0; start_time := Some (sample_time 1);
            end_time := Some (sample_time 2);
            duration_seconds := Some 1000000%Z |} |} in
  urlparse_netloc sample_url = Ok (lit "my-site.example.com:8080") /\
  run = (Ok r, snd run) /\
  error r = None /\
  file_path r =
    Some (path_join (results_directory sample_env)
            (lit "crawl_my-site_example_com:8080_20240309_070500.md")).
Proof.
  intros run r.
  assert (Hn : urlparse_netloc sample_url = Ok (lit "my-site.example.com:8080"))
    by (vm_compute; reflexivity).
  assert (Hrun : run = (Ok r, snd run)) by (vm_compute; reflexivity).
  split; [exact Hn|]. split; [exact Hrun|]. split; [reflexivity|].
  exact (proj2 (output_file_resolution sample_env sample_url (VInt 2) (VBool false)
                  (VBool true) initial_state (snd run) r
                  (lit "my-site.example.com:8080") None Hn Hrun eq_refl)).
Defined.

(** ** The tool handler *)

(** C9. A call of the tool [crawl] whose arguments have no [url] key is
    rejected: the handler raises [ValueError("Missing required argument
    'url'")] at once, before anything is crawled or written, and returns no
    content. *)
Theorem crawl_tool_missing_url (E : env) (arguments : gmap str pyval)
    (st : state) :
  arguments !! lit "url" = None ->
  crawl_tool E (lit "crawl") arguments st =
  (Raise (ValueError (lit "Missing required argument 'url'")), st).
Proof.
  intros Hurl. unfold crawl_tool.
  rewrite bool_decide_eq_true_2 by reflexivity. cbn [negb].
  rewrite Hurl. reflexivity.
Qed.

Lemma crawl_tool_missing_url_witness :
  ({[ lit "max_depth" := VInt 1 ]} : gmap str pyval) !! lit "url" = None /\
  crawl_tool sample_env (lit "crawl") {[ lit "max_depth" := VInt 1 ]} initial_state =
  (Raise (ValueError (lit "Missing required argument 'url'")), initial_state).
Proof.
  split; [vm_compute; reflexivity|].
  apply (crawl_tool_missing_url sample_env {[ lit "max_depth" := VInt 1 ]}
           initial_state).
  vm_compute. reflexivity.
Defined.

Example crawl_tool_unknown_tool :
  fst (crawl_tool sample_env (lit "fetch") ∅ initial_state) =
  Raise (ValueError (lit "Unknown tool: fetch")).
Proof. vm_compute. reflexivity. Qed.

(** * Further properties *)

(** ** Substitution where the pattern finds nothing, and behind a match *)

Lemma sub_from_id_suffix {St : Type} (r : regex)
    (repl : St -> str -> option str -> str * St) (Q : str -> Prop) :
  (forall x t, Q (x :: t) -> Q t) ->
  (forall x t, Q (x :: t) -> re_match r (x :: t) = None) ->
  forall s st, Q s -> sub_from r repl 0 st s = (s, st).
Proof.
  intros Htl Hno. induction s as [|x s IH]; intros st HQ; [reflexivity|].
  cbn [sub_from]. rewrite (Hno x s HQ). rewrite IH by eauto. reflexivity.
Qed.

Lemma re_sub_id_suffix (r : regex) (repl : str -> option str -> str)
    (Q : str -> Prop) (s : str) :
  (forall x t, Q (x :: t) -> Q t) ->
  (forall x t, Q (x :: t) -> re_match r (x :: t) = None) ->
  Q s -> re_sub r repl s = s.
Proof.
  intros Htl Hno HQ. unfold re_sub, re_sub_with.
  rewrite (sub_from_id_suffix r _ Q Htl Hno s tt HQ). reflexivity.
Qed.

Lemma sub_from_skip_all {St : Type} (r : regex)
    (repl : St -> str -> option str -> str * St) (s : str) :
  forall skip st, (length s <= skip)%nat -> sub_from r repl skip st s = ([], st).
Proof.
  induction s as [|x s IH]; intros skip st Hlen; [reflexivity|].
  cbn [sub_from]. destruct skip as [|n]; [simpl in Hlen; lia|].
  apply IH. simpl in Hlen. lia.
Qed.

(** Passing over the rest of a match of [n + 1] characters. *)
Lemma sub_from_skip_app {St : Type} (r : regex)
    (repl : St -> str -> option str -> str * St) (a b : str) (st : St) :
  sub_from r repl (length a) st (a ++ b) = sub_from r repl 0 st b.
Proof. induction a as [|x a IH]; [reflexivity|]. cbn. apply IH. Qed.

Lemma forall_tail (P : N -> Prop) (x : N) (t : str) :
  Forall P (x :: t) -> Forall P t.
Proof. intros H. inversion H; assumption. Qed.

(** A greedy repetition over a run of matching characters that ends at a
    character outside the class, when the rest of the pattern accepts what
    follows the run. *)
Lemma rep_greedy_run {R : Type} (p : N -> bool) (a : str) (c : N) (rest : str)
    (k : str -> option R) (res : R) :
  Forall (fun x => p x = true) a -> p c = false ->
  k (c :: rest) = Some res ->
  forall min, (min <= length a)%nat ->
  rep p true min (a ++ c :: rest) k = Some res.
Proof.
  intros Ha Hc Hk. induction Ha as [|x a Hx _ IH]; intros min Hmin.
  - destruct min; [|simpl in Hmin; lia]. cbn. rewrite Hc. exact Hk.
  - cbn [app rep]. destruct min as [|m]; rewrite Hx.
    + rewrite (IH 0%nat) by lia. reflexivity.
    + apply IH. simpl in Hmin. lia.
Qed.

(** A repetition fails when the rest of the pattern fails wherever it is
    tried. *)
Lemma rep_none {R : Type} (p : N -> bool) (greedy : bool) (k : str -> option R)
    (s : str) :
  (forall n, k (drop n s) = None) ->
  forall min, rep p greedy min s k = None.
Proof.
  induction s as [|x s IH]; intros Hk min.
  - destruct min; cbn; [|reflexivity]. specialize (Hk 0%nat). cbn in Hk.
    destruct greedy; [exact Hk|rewrite Hk; reflexivity].
  - assert (Hs : forall n, k (drop n s) = None) by (intros n; apply (Hk (S n))).
    destruct min as [|m]; cbn [rep].
    + rewrite (IH Hs 0%nat). specialize (Hk 0%nat). cbn in Hk.
      destruct greedy; rewrite Hk; destruct (p x); reflexivity.
    + rewrite (IH Hs m). destruct (p x); reflexivity.
Qed.

(** ** The patterns of the stripper where they cannot match *)

Lemma chr_head_no_match (r1 r2 : regex) (c x : N) (t : str) :
  x <> c -> re_match (Seq (Seq (Chr c) r1) r2) (x :: t) = None.
Proof.
  intros Hx. unfold re_match. cbn [go].
  destruct (N.eqb_spec c x); [congruence|reflexivity].
Qed.

Lemma code_block_no_match (x : N) (t : str) :
  x <> 0x60 -> re_match code_block_re (x :: t) = None.
Proof.
  apply (chr_head_no_match (Lit [96; 96])
           (cat [Rep any_char 0 false; Lit (lit "```")]) 96).
Qed.

Lemma chr_first_no_match (r : regex) (c x : N) (t : str) :
  x <> c -> re_match (Seq (Chr c) r) (x :: t) = None.
Proof.
  intros Hx. unfold re_match. cbn [go].
  destruct (N.eqb_spec c x); [congruence|reflexivity].
Qed.

Lemma chr_second_no_match (r : regex) (c d x : N) (t : str) :
  Forall (fun y => y <> d) t ->
  re_match (Seq (Chr c) (Seq (Chr d) r)) (x :: t) = None.
Proof.
  intros Ht. unfold re_match. cbn [go].
  destruct (c =? x); [|reflexivity].
  destruct t as [|y t]; [reflexivity|]. inversion Ht; subst.
  destruct (N.eqb_spec d y); [congruence|reflexivity].
Qed.

Lemma link_no_match (x : N) (t : str) :
  x <> 0x5B -> re_match link_re (x :: t) = None.
Proof. apply chr_first_no_match. Qed.

Lemma image_no_match (x : N) (t : str) :
  Forall (fun c => c <> 0x5B) (x :: t) -> re_match image_re (x :: t) = None.
Proof. intros H. apply chr_second_no_match. inversion H; assumption. Qed.

Lemma blank_lines_no_match (x : N) (t : str) :
  x <> 10 -> re_match blank_lines_re (x :: t) = None.
Proof. apply chr_first_no_match. Qed.

Lemma contains_tail (p : str) (x : N) (t : str) :
  contains p (x :: t) = false -> contains p t = false.
Proof. cbn [contains]. intros H. apply orb_false_iff in H. tauto. Qed.

Lemma spaces_no_match (x : N) (t : str) :
  contains (lit "  ") (x :: t) = false -> re_match spaces_re (x :: t) = None.
Proof.
  cbn [contains]. intros H. apply orb_false_iff in H as [H _].
  change (lit "  ") with [32; 32] in H. cbn [starts_with] in H.
  unfold re_match, spaces_re.
  destruct t as [|y t]; cbn [go rep]; unfold is_char;
    rewrite (N.eqb_sym x 32); destruct (32 =? x); try reflexivity.
  rewrite (N.eqb_sym y 32). cbn [starts_with andb] in H.
  rewrite andb_true_r in H. rewrite H. reflexivity.
Qed.

Lemma plain_no_backtick (s : str) : plain s -> Forall (fun c => c <> 0x60) s.
Proof. intros [H _]. eapply Forall_impl; [exact H|]. cbn. tauto. Qed.

Lemma plain_no_bracket (s : str) : plain s -> Forall (fun c => c <> 0x5B) s.
Proof. intros [H _]. eapply Forall_impl; [exact H|]. cbn. tauto. Qed.

Lemma plain_no_newline (s : str) : plain s -> Forall (fun c => c <> 10) s.
Proof. intros [H _]. eapply Forall_impl; [exact H|]. cbn. tauto. Qed.

Lemma re_sub_head_id (r : regex) (repl : str -> option str -> str) (c : N)
    (s : str) :
  (forall x t, x <> c -> re_match r (x :: t) = None) ->
  Forall (fun x => x <> c) s -> re_sub r repl s = s.
Proof.
  intros Hno Hs.
  apply (re_sub_id_suffix r repl (Forall (fun x => x <> c))); auto.
  - intros x t. apply forall_tail.
  - intros x t H. apply Hno. inversion H; assumption.
Qed.

Lemma re_sub_image_id (repl : str -> option str -> str) (s : str) :
  Forall (fun c => c <> 0x5B) s -> re_sub image_re repl s = s.
Proof.
  apply (re_sub_id_suffix image_re repl (Forall (fun x => x <> 0x5B))).
  - intros x t. apply forall_tail.
  - apply image_no_match.
Qed.

Lemma re_sub_spaces_id (repl : str -> option str -> str) (s : str) :
  contains (lit "  ") s = false -> re_sub spaces_re repl s = s.
Proof.
  apply (re_sub_id_suffix spaces_re repl (fun t => contains (lit "  ") t = false)).
  - apply contains_tail.
  - apply spaces_no_match.
Qed.

(** The four substitutions that follow the extraction of the code blocks
    leave a text alone that has no opening bracket, no line break and no two
    spaces in a row. *)
Lemma later_steps_id (s : str) :
  Forall (fun c => c <> 0x5B) s -> Forall (fun c => c <> 10) s ->
  contains (lit "  ") s = false ->
  re_sub spaces_re (fun _ _ => lit " ")
    (re_sub blank_lines_re (fun _ _ => nl ++ nl)
       (re_sub image_re (fun _ _ => [])
          (re_sub link_re (fun _ g => default [] g) s))) = s.
Proof.
  intros Hb Hn Hsp.
  rewrite (re_sub_head_id link_re _ 0x5B) by (assumption || apply link_no_match).
  rewrite re_sub_image_id by assumption.
  rewrite (re_sub_head_id blank_lines_re _ 10)
    by (assumption || apply blank_lines_no_match).
  apply re_sub_spaces_id, Hsp.
Qed.

(** Plain text comes back from the stripper as it went in. *)
Theorem remove_links_plain_unchanged (s : str) :
  plain s -> remove_links_from_markdown s = s.
Proof.
  intros Hp. unfold remove_links_from_markdown, re_sub_with.
  rewrite (sub_from_id_suffix code_block_re save_code_block
             (Forall (fun x => x <> 0x60))).
  - cbn [enumerate length seq combine fold_left].
    apply later_steps_id;
      [apply plain_no_bracket|apply plain_no_newline|apply Hp]; exact Hp.
  - intros x t. apply forall_tail.
  - intros x t H. apply code_block_no_match. inversion H; assumption.
  - apply plain_no_backtick, Hp.
Qed.

Lemma remove_links_plain_unchanged_witness :
  plain (lit "Hello, world! (see footnote) 100% done_") /\
  remove_links_from_markdown (lit "Hello, world! (see footnote) 100% done_") =
  lit "Hello, world! (see footnote) 100% done_".
Proof.
  assert (H : plain (lit "Hello, world! (see footnote) 100% done_")).
  { split; [|vm_compute; reflexivity].
    cbn. repeat (constructor; [repeat split; discriminate|]). constructor. }
  split; [exact H|].
  exact (remove_links_plain_unchanged _ H).
Defined.

(** ** One fenced block between plain text *)

Lemma sub_from_prefix_no_match {St : Type} (r : regex)
    (repl : St -> str -> option str -> str * St) (c : N) (pre rest : str)
    (st : St) :
  (forall x t, x <> c -> re_match r (x :: t) = None) ->
  Forall (fun x => x <> c) pre ->
  sub_from r repl 0 st (pre ++ rest) =
  (pre ++ fst (sub_from r repl 0 st rest), snd (sub_from r repl 0 st rest)).
Proof.
  intros Hno Hpre. induction Hpre as [|x pre Hx _ IH].
  - cbn [app]. destruct (sub_from r repl 0 st rest); reflexivity.
  - cbn [app sub_from]. rewrite (Hno x _ Hx), IH. reflexivity.
Qed.

(** The scan at a position where the pattern matches [x :: m]. *)
Lemma sub_from_match {St : Type} (r : regex)
    (repl : St -> str -> option str -> str * St) (x : N) (m rest : str)
    (g : option str) (st : St) :
  re_match r (x :: m ++ rest) = Some (rest, g) ->
  sub_from r repl 0 st (x :: m ++ rest) =
  (fst (repl st (x :: m) g) ++ fst (sub_from r repl 0 (snd (repl st (x :: m) g)) rest),
   snd (sub_from r repl 0 (snd (repl st (x :: m) g)) rest)).
Proof.
  intros Hm. cbn [sub_from]. rewrite Hm.
  replace (length (x :: m ++ rest) - length rest)%nat with (S (length m))
    by (cbn [length]; rewrite length_app; lia).
  replace (take (S (length m)) (x :: m ++ rest)) with (x :: m)
    by (cbn [take]; rewrite take_app_length; reflexivity).
  destruct (repl st (x :: m) g) as [out st1]. cbn [fst snd].
  rewrite sub_from_skip_app.
  destruct (sub_from r repl 0 st1 rest); reflexivity.
Qed.

(** A lazy repetition of any character runs up to the first place where the
    rest of the pattern matches; here the rest fails on every character of
    [body]. *)
Lemma rep_lazy_until {R : Type} (k : str -> option R) (body rest : str) (res : R) :
  (forall x t, In x body -> k (x :: t) = None) ->
  k rest = Some res ->
  rep any_char false 0 (body ++ rest) k = Some res.
Proof.
  intros Hno Hk. induction body as [|x body IH].
  - cbn [app]. destruct rest; cbn [rep]; rewrite Hk; reflexivity.
  - cbn [app rep]. rewrite (Hno x (body ++ rest)) by (left; reflexivity).
    cbn [any_char]. apply IH. intros y t Hy. apply Hno. right. exact Hy.
Qed.

Lemma code_block_match (body post : str) :
  Forall (fun c => c <> 0x60) body ->
  re_match code_block_re (96 :: [96; 96] ++ body ++ [96; 96; 96] ++ post) =
  Some (post, None).
Proof.
  intros Hb.
  change (re_match code_block_re (96 :: [96; 96] ++ body ++ [96; 96; 96] ++ post))
    with (rep any_char false 0 (body ++ [96; 96; 96] ++ post)
            (fun s' => go (cat [Lit [96; 96; 96]]) s' None
                         (fun s'' g => Some (s'', g)))).
  apply rep_lazy_until; [|reflexivity].
  intros x t Hx. rewrite List.Forall_forall in Hb. specialize (Hb x Hx).
  cbn [go cat Lit List.map].
  destruct (N.eqb_spec 96 x); [congruence|reflexivity].
Qed.

(** The first step on a text with one fenced block: the block is kept in
    the list and its place is taken by the placeholder number 0. *)
Lemma extract_one_block (pre body post : str) :
  Forall (fun c => c <> 0x60) pre -> Forall (fun c => c <> 0x60) body ->
  Forall (fun c => c <> 0x60) post ->
  re_sub_with code_block_re save_code_block []
    (pre ++ lit "```" ++ body ++ lit "```" ++ post) =
  (pre ++ placeholder 0 ++ post, [lit "```" ++ body ++ lit "```"]).
Proof.
  intros Hpre Hbody Hpost. unfold re_sub_with.
  rewrite (sub_from_prefix_no_match code_block_re save_code_block 0x60)
    by (assumption || apply code_block_no_match).
  change (lit "```" ++ body ++ lit "```" ++ post)
    with (96 :: [96; 96] ++ body ++ [96; 96; 96] ++ post).
  replace (96 :: [96; 96] ++ body ++ [96; 96; 96] ++ post)
    with (96 :: ([96; 96] ++ body ++ [96; 96; 96]) ++ post)
    by (rewrite <- !app_assoc; reflexivity).
  rewrite (sub_from_match code_block_re save_code_block 96
             ([96; 96] ++ body ++ [96; 96; 96]) post None []).
  - cbn [save_code_block fst snd app length Nat.sub].
    rewrite (sub_from_id_suffix code_block_re save_code_block
               (Forall (fun x => x <> 0x60)));
      [ | intros x t; apply forall_tail
        | intros x t H; apply code_block_no_match; inversion H; assumption
        | assumption ].
    cbn [fst snd]. change (lit "```" ++ body ++ lit "```")
      with (96 :: [96; 96] ++ body ++ [96; 96; 96]). reflexivity.
  - rewrite <- !app_assoc. apply code_block_match, Hbody.
Qed.

Lemma contains_app_sep (p a b : str) (c : N) :
  p <> [] -> Forall (fun x => x <> c) p ->
  contains p (a ++ c :: b) = contains p a || contains p (c :: b).
Proof.
  intros Hne Hp. induction a as [|y a IH].
  - destruct p; [contradiction|reflexivity].
  - change (contains p ((y :: a) ++ c :: b))
      with (starts_with p ((y :: a) ++ c :: b) || contains p (a ++ c :: b)).
    change (contains p (y :: a)) with (starts_with p (y :: a) || contains p a).
    rewrite starts_with_app_sep by assumption. rewrite IH, orb_assoc. reflexivity.
Qed.

Lemma placeholder_0 :
  placeholder 0 = [95; 95; 67; 79; 68; 69; 95; 66; 76; 79; 67; 75; 95; 48; 95; 95].
Proof. reflexivity. Qed.

Lemma replace_from_skip_app (old new a b : str) :
  replace_from old new (length a) (a ++ b) = replace_from old new 0 b.
Proof. induction a as [|x a IH]; [reflexivity|]. cbn. apply IH. Qed.

Lemma replace_from_prefix (old new pre rest : str) (c : N) :
  Forall (fun x => x <> c) pre ->
  replace_from (c :: old) new 0 (pre ++ rest) =
  pre ++ replace_from (c :: old) new 0 rest.
Proof.
  induction 1 as [|x pre Hx _ IH]; [reflexivity|].
  cbn [app replace_from starts_with].
  destruct (N.eqb_spec c x); [congruence|]. cbn [andb]. rewrite IH. reflexivity.
Qed.

Lemma starts_with_self_app (p s : str) : starts_with p (p ++ s) = true.
Proof.
  induction p as [|x p IH]; [reflexivity|].
  cbn [app starts_with]. rewrite N.eqb_refl, IH. reflexivity.
Qed.

Lemma replace_from_at (old new rest : str) (c : N) :
  replace_from (c :: old) new 0 ((c :: old) ++ rest) =
  new ++ replace_from (c :: old) new 0 rest.
Proof.
  change ((c :: old) ++ rest) with (c :: (old ++ rest)).
  cbn [replace_from].
  change (c :: (old ++ rest)) with ((c :: old) ++ rest).
  rewrite starts_with_self_app.
  replace (length (c :: old) - 1)%nat with (length old) by (cbn [length]; lia).
  rewrite replace_from_skip_app. reflexivity.
Qed.

(** Putting one block back in a text that holds its placeholder once and no
    underscore elsewhere. *)
Lemma reinsert_one_block (pre post block : str) :
  Forall (fun x => x <> 0x5F) pre -> Forall (fun x => x <> 0x5F) post ->
  replace (placeholder 0) block (pre ++ placeholder 0 ++ post) =
  pre ++ block ++ post.
Proof.
  intros Hpre Hpost. rewrite placeholder_0. unfold replace.
  rewrite replace_from_prefix by assumption.
  rewrite replace_from_at.
  rewrite <- (app_nil_r post) at 1. rewrite replace_from_prefix by assumption.
  cbn [replace_from]. rewrite app_nil_r. reflexivity.
Qed.

(** One fenced block, with no backtick in its body, between two stretches
    of plain text without underscores: the text and the block come back as
    they were, whatever links, images, blank lines or runs of spaces the
    block holds. *)
Theorem remove_links_keeps_fenced_block (pre body post : str) :
  plain pre -> Forall (fun c => c <> 0x5F) pre ->
  plain post -> Forall (fun c => c <> 0x5F) post ->
  Forall (fun c => c <> 0x60) body ->
  remove_links_from_markdown (pre ++ lit "```" ++ body ++ lit "```" ++ post) =
  pre ++ lit "```" ++ body ++ lit "```" ++ post.
Proof.
  intros Hpre Hupre Hpost Hupost Hbody. unfold remove_links_from_markdown.
  rewrite extract_one_block
    by (assumption || apply plain_no_backtick; assumption).
  rewrite later_steps_id.
  - cbn [enumerate length seq combine fold_left fst snd].
    rewrite reinsert_one_block by assumption.
    rewrite <- !app_assoc. reflexivity.
  - rewrite !Forall_app. repeat split; try (apply plain_no_bracket; assumption).
    rewrite placeholder_0. repeat (constructor; [discriminate|]). constructor.
  - rewrite !Forall_app. repeat split; try (apply plain_no_newline; assumption).
    rewrite placeholder_0. repeat (constructor; [discriminate|]). constructor.
  - rewrite placeholder_0.
    change ([95; 95; 67; 79; 68; 69; 95; 66; 76; 79; 67; 75; 95; 48; 95; 95] ++ post)
      with (95 :: ([95; 67; 79; 68; 69; 95; 66; 76; 79; 67; 75; 95; 48; 95] ++ 95 :: post)).
    assert (Hsp : Forall (fun x => x <> 95) (lit "  "))
      by (repeat (constructor; [discriminate|]); constructor).
    assert (Hne : lit "  " <> []) by discriminate.
    rewrite (contains_app_sep _ pre _ 95 Hne Hsp).
    destruct Hpre as [_ ->]. cbn [orb].
    change (contains (lit "  ")
              (95 :: [95; 67; 79; 68; 69; 95; 66; 76; 79; 67; 75; 95; 48; 95] ++ 95 :: post))
      with (contains (lit "  ")
              ([95; 67; 79; 68; 69; 95; 66; 76; 79; 67; 75; 95; 48; 95] ++ 95 :: post)).
    rewrite (contains_app_sep _ _ _ 95 Hne Hsp).
    change (contains (lit "  ") (95 :: post)) with (contains (lit "  ") post).
    destruct Hpost as [_ ->]. reflexivity.
Qed.

Lemma remove_links_keeps_fenced_block_witness :
  let pre := lit "Run this: " in
  let body := [10] ++ lit "see  [docs](http://x)  ![i](u)" ++ [10; 10; 10] in
  let post := lit " and wait." in
  plain pre /\ Forall (fun c => c <> 0x5F) pre /\
  plain post /\ Forall (fun c => c <> 0x5F) post /\
  Forall (fun c => c <> 0x60) body /\
  remove_links_from_markdown (pre ++ lit "```" ++ body ++ lit "```" ++ post) =
  pre ++ lit "```" ++ body ++ lit "```" ++ post.
Proof.
  intros pre body post.
  assert (H1 : plain pre).
  { split; [|vm_compute; reflexivity].
    cbn. repeat (constructor; [repeat split; discriminate|]). constructor. }
  assert (H2 : Forall (fun c => c <> 0x5F) pre)
    by (cbn; repeat (constructor; [discriminate|]); constructor).
  assert (H3 : plain post).
  { split; [|vm_compute; reflexivity].
    cbn. repeat (constructor; [repeat split; discriminate|]). constructor. }
  assert (H4 : Forall (fun c => c <> 0x5F) post)
    by (cbn; repeat (constructor; [discriminate|]); constructor).
  assert (H5 : Forall (fun c => c <> 0x60) body)
    by (cbn; repeat (constructor; [discriminate|]); constructor).
  repeat (split; [assumption|]).
  exact (remove_links_keeps_fenced_block pre body post H1 H2 H3 H4 H5).
Defined.

(** ** A link and an image in plain text *)

Lemma take_app_minus (a b : str) : take (length (a ++ b) - length b) (a ++ b) = a.
Proof.
  replace (length (a ++ b) - length b)%nat with (length a)
    by (rewrite length_app; lia).
  apply take_app_length.
Qed.

Lemma not_char_run (c : N) (s : str) :
  Forall (fun x => x <> c) s -> Forall (fun x => not_char c x = true) s.
Proof.
  intros H. eapply Forall_impl; [exact H|]. intros x Hx. unfold not_char.
  destruct (N.eqb_spec x c); [contradiction|reflexivity].
Qed.

Lemma not_char_self (c : N) : not_char c c = false.
Proof. unfold not_char. rewrite N.eqb_refl. reflexivity. Qed.

(** The target part [](u)] of a link or an image, followed by [post]. *)
Lemma target_match (u post : str) (g : option str) :
  u <> [] -> Forall (fun c => c <> 0x29) u ->
  go (cat [Chr 0x5D; Chr 0x28; Rep (not_char 0x29) 1 true; Chr 0x29])
    (0x5D :: 0x28 :: u ++ 0x29 :: post) g (fun s' g' => Some (s', g'))
  = Some (post, g).
Proof.
  intros Hne Hu. cbn [go cat]. rewrite !N.eqb_refl.
  apply rep_greedy_run.
  - apply not_char_run, Hu.
  - apply not_char_self.
  - rewrite N.eqb_refl. reflexivity.
  - destruct u; [contradiction|simpl; lia].
Qed.

Lemma target_shape (t u post : str) :
  (t ++ 0x5D :: 0x28 :: u ++ [0x29]) ++ post = t ++ 0x5D :: 0x28 :: u ++ 0x29 :: post.
Proof.
  rewrite <- app_assoc. cbn [app]. rewrite <- app_assoc. reflexivity.
Qed.

Lemma link_match (t u post : str) :
  t <> [] -> Forall (fun c => c <> 0x5D) t ->
  u <> [] -> Forall (fun c => c <> 0x29) u ->
  re_match link_re (0x5B :: (t ++ 0x5D :: 0x28 :: u ++ [0x29]) ++ post) =
  Some (post, Some t).
Proof.
  intros Ht Hbt Hu Hbu. unfold re_match, link_re.
  rewrite target_shape.
  change (cat (Chr 0x5B :: Grp (Rep (not_char 0x5D) 1 true) :: ?r))
    with (Seq (Chr 0x5B) (Seq (Grp (Rep (not_char 0x5D) 1 true)) (cat r))).
  cbn [go]. rewrite N.eqb_refl.
  apply rep_greedy_run.
  - apply not_char_run, Hbt.
  - apply not_char_self.
  - rewrite take_app_minus. apply target_match; assumption.
  - destruct t; [contradiction|simpl; lia].
Qed.

(** A link [[t](u)] inside plain text is replaced by its text [t]. *)
Theorem remove_links_link_in_plain_text (pre t u post : str) :
  plain (pre ++ t ++ post) ->
  t <> [] -> Forall (fun c => c <> 0x5D) t ->
  u <> [] -> Forall (fun c => c <> 0x29 /\ c <> 0x60) u ->
  remove_links_from_markdown (pre ++ lit "[" ++ t ++ lit "](" ++ u ++ lit ")" ++ post)
  = pre ++ t ++ post.
Proof.
  intros Hp Ht Hbt Hu Hbu.
  pose proof (plain_no_backtick _ Hp) as Htick.
  pose proof (plain_no_bracket _ Hp) as Hbr.
  pose proof (plain_no_newline _ Hp) as Hnl.
  rewrite !Forall_app in Htick, Hbr.
  destruct Htick as (Tpre & Tt & Tpost). destruct Hbr as (Bpre & Bt & Bpost).
  assert (Hu1 : Forall (fun c => c <> 0x29) u)
    by (eapply Forall_impl; [exact Hbu|]; cbn; tauto).
  assert (Hu2 : Forall (fun c => c <> 0x60) u)
    by (eapply Forall_impl; [exact Hbu|]; cbn; tauto).
  unfold remove_links_from_markdown, re_sub_with.
  rewrite (sub_from_id_suffix code_block_re save_code_block
             (Forall (fun x => x <> 0x60)));
    [ | intros x s; apply forall_tail
      | intros x s H; apply code_block_no_match; inversion H; assumption
      | ].
  - cbn [enumerate length seq combine fold_left].
    assert (Hlink :
      re_sub link_re (fun _ g => default [] g)
        (pre ++ lit "[" ++ t ++ lit "](" ++ u ++ lit ")" ++ post)
      = pre ++ t ++ post).
    { unfold re_sub, re_sub_with.
      rewrite (sub_from_prefix_no_match link_re _ 0x5B)
        by (assumption || apply link_no_match).
      change (lit "[" ++ t ++ lit "](" ++ u ++ lit ")" ++ post)
        with (0x5B :: t ++ 0x5D :: 0x28 :: u ++ 0x29 :: post).
      replace (0x5B :: t ++ 0x5D :: 0x28 :: u ++ 0x29 :: post)
        with (0x5B :: (t ++ 0x5D :: 0x28 :: u ++ [0x29]) ++ post)
        by (rewrite target_shape; reflexivity).
      rewrite (sub_from_match link_re _ 0x5B _ post (Some t) tt)
        by (apply link_match; assumption).
      cbn [fst snd default].
      rewrite (sub_from_id_suffix link_re _ (Forall (fun x => x <> 0x5B)));
        [ reflexivity
        | intros x s; apply forall_tail
        | intros x s H; apply link_no_match; inversion H; assumption
        | assumption ]. }
    rewrite Hlink.
    rewrite re_sub_image_id by (rewrite !Forall_app; auto).
    rewrite (re_sub_head_id blank_lines_re _ 10)
      by (assumption || apply blank_lines_no_match).
    apply re_sub_spaces_id, Hp.
  - rewrite !Forall_app. repeat split; try assumption;
      repeat (constructor; [discriminate|]); constructor.
Qed.

Lemma remove_links_link_in_plain_text_witness :
  let pre := lit "See " in
  let t := lit "the docs" in
  let u := lit "http://example.com/a_b?x=[1]" in
  let post := lit " for more." in
  plain (pre ++ t ++ post) /\ t <> [] /\ Forall (fun c => c <> 0x5D) t /\
  u <> [] /\ Forall (fun c => c <> 0x29 /\ c <> 0x60) u /\
  remove_links_from_markdown (pre ++ lit "[" ++ t ++ lit "](" ++ u ++ lit ")" ++ post)
  = lit "See the docs for more.".
Proof.
  intros pre t u post.
  assert (H1 : plain (pre ++ t ++ post)).
  { split; [|vm_compute; reflexivity].
    cbn. repeat (constructor; [repeat split; discriminate|]). constructor. }
  assert (H2 : t <> []) by discriminate.
  assert (H3 : Forall (fun c => c <> 0x5D) t)
    by (cbn; repeat (constructor; [discriminate|]); constructor).
  assert (H4 : u <> []) by discriminate.
  assert (H5 : Forall (fun c => c <> 0x29 /\ c <> 0x60) u)
    by (cbn; repeat (constructor; [split; discriminate|]); constructor).
  repeat (split; [assumption|]).
  exact (remove_links_link_in_plain_text pre t u post H1 H2 H3 H4 H5).
Defined.

Lemma chr_second_head_no_match (r : regex) (c d x : N) (t : str) :
  match t with [] => True | y :: _ => y <> d end ->
  re_match (Seq (Chr c) (Seq (Chr d) r)) (x :: t) = None.
Proof.
  intros Ht. unfold re_match. cbn [go].
  destruct (c =? x); [|reflexivity].
  destruct t as [|y t]; [reflexivity|].
  destruct (N.eqb_spec d y); [congruence|reflexivity].
Qed.

Lemma sub_from_step_no_match {St : Type} (r : regex)
    (repl : St -> str -> option str -> str * St) (x : N) (t : str) (st : St) :
  re_match r (x :: t) = None ->
  sub_from r repl 0 st (x :: t) =
  (x :: fst (sub_from r repl 0 st t), snd (sub_from r repl 0 st t)).
Proof.
  intros H. cbn [sub_from]. rewrite H.
  destruct (sub_from r repl 0 st t); reflexivity.
Qed.

Lemma image_head_no_match (x : N) (t : str) :
  match t with [] => True | y :: _ => y <> 0x5B end ->
  re_match image_re (x :: t) = None.
Proof. apply chr_second_head_no_match. Qed.

Lemma sub_from_image_prefix {St : Type}
    (repl : St -> str -> option str -> str * St) (pre rest : str) (y : N) (st : St) :
  Forall (fun x => x <> 0x5B) pre -> y <> 0x5B ->
  sub_from image_re repl 0 st (pre ++ y :: rest) =
  (pre ++ fst (sub_from image_re repl 0 st (y :: rest)),
   snd (sub_from image_re repl 0 st (y :: rest))).
Proof.
  intros Hpre Hy. induction Hpre as [|x pre Hx Hpre IH].
  - cbn [app]. destruct (sub_from image_re repl 0 st (y :: rest)); reflexivity.
  - cbn [app sub_from].
    rewrite (image_head_no_match x (pre ++ y :: rest)).
    + rewrite IH. reflexivity.
    + destruct Hpre as [|z pre Hz _]; cbn [app]; congruence.
Qed.

Lemma image_match_empty_alt (u post : str) :
  u <> [] -> Forall (fun c => c <> 0x29) u ->
  re_match image_re (0x21 :: ([0x5B] ++ 0x5D :: 0x28 :: u ++ [0x29]) ++ post) =
  Some (post, None).
Proof.
  intros Hu Hbu. unfold re_match, image_re. rewrite target_shape.
  change (cat (Chr 0x21 :: Chr 0x5B :: Rep (not_char 0x5D) 0 true :: ?r))
    with (Seq (Chr 0x21) (Seq (Chr 0x5B) (Seq (Rep (not_char 0x5D) 0 true) (cat r)))).
  cbn [go app]. rewrite !N.eqb_refl.
  apply (rep_greedy_run (not_char 0x5D) [] 0x5D).
  - constructor.
  - apply not_char_self.
  - apply target_match; assumption.
  - reflexivity.
Qed.

(** An image with an empty alt text, [![](u)], inside plain text is removed
    with its target. *)
Theorem remove_links_image_without_alt (pre u post : str) :
  plain (pre ++ post) ->
  u <> [] -> Forall (fun c => c <> 0x29 /\ c <> 0x60 /\ c <> 0x5B) u ->
  remove_links_from_markdown (pre ++ lit "![](" ++ u ++ lit ")" ++ post)
  = pre ++ post.
Proof.
  intros Hp Hu Hbu.
  pose proof (plain_no_backtick _ Hp) as Htick.
  pose proof (plain_no_bracket _ Hp) as Hbr.
  rewrite !Forall_app in Htick, Hbr.
  destruct Htick as (Tpre & Tpost). destruct Hbr as (Bpre & Bpost).
  assert (Hu1 : Forall (fun c => c <> 0x29) u)
    by (eapply Forall_impl; [exact Hbu|]; cbn; tauto).
  assert (Hu2 : Forall (fun c => c <> 0x60) u)
    by (eapply Forall_impl; [exact Hbu|]; cbn; tauto).
  assert (Hu3 : Forall (fun c => c <> 0x5B) u)
    by (eapply Forall_impl; [exact Hbu|]; cbn; tauto).
  unfold remove_links_from_markdown, re_sub_with.
  rewrite (sub_from_id_suffix code_block_re save_code_block
             (Forall (fun x => x <> 0x60)));
    [ | intros x s; apply forall_tail
      | intros x s H; apply code_block_no_match; inversion H; assumption
      | ].
  - cbn [enumerate length seq combine fold_left].
    change (lit "![](" ++ u ++ lit ")" ++ post)
      with (0x21 :: 0x5B :: 0x5D :: 0x28 :: u ++ 0x29 :: post).
    assert (Hlink :
      re_sub link_re (fun _ g => default [] g)
        (pre ++ 0x21 :: 0x5B :: 0x5D :: 0x28 :: u ++ 0x29 :: post)
      = pre ++ 0x21 :: 0x5B :: 0x5D :: 0x28 :: u ++ 0x29 :: post).
    { unfold re_sub, re_sub_with.
      replace (pre ++ 0x21 :: 0x5B :: 0x5D :: 0x28 :: u ++ 0x29 :: post)
        with ((pre ++ [0x21]) ++ 0x5B :: 0x5D :: 0x28 :: u ++ 0x29 :: post)
        by (rewrite <- app_assoc; reflexivity).
      rewrite (sub_from_prefix_no_match link_re _ 0x5B);
        [ | apply link_no_match
          | rewrite Forall_app; split;
            [assumption|constructor; [discriminate|constructor]] ].
      rewrite sub_from_step_no_match by reflexivity.
      rewrite (sub_from_id_suffix link_re _ (Forall (fun x => x <> 0x5B)));
        [ reflexivity
        | intros x s; apply forall_tail
        | intros x s H; apply link_no_match; inversion H; assumption
        | ].
      constructor; [discriminate|]. constructor; [discriminate|].
      rewrite Forall_app. split; [assumption|].
      constructor; [discriminate|assumption]. }
    rewrite Hlink.
    assert (Himage :
      re_sub image_re (fun _ _ => [])
        (pre ++ 0x21 :: 0x5B :: 0x5D :: 0x28 :: u ++ 0x29 :: post)
      = pre ++ post).
    { unfold re_sub, re_sub_with.
      rewrite sub_from_image_prefix by (assumption || discriminate).
      replace (0x21 :: 0x5B :: 0x5D :: 0x28 :: u ++ 0x29 :: post)
        with (0x21 :: ([0x5B] ++ 0x5D :: 0x28 :: u ++ [0x29]) ++ post)
        by (rewrite target_shape; reflexivity).
      rewrite (sub_from_match image_re _ 0x21 _ post None tt)
        by (apply image_match_empty_alt; assumption).
      cbn [fst snd app].
      rewrite (sub_from_id_suffix image_re _ (Forall (fun x => x <> 0x5B)));
        [ reflexivity
        | intros x s; apply forall_tail
        | apply image_no_match
        | assumption ]. }
    rewrite Himage.
    rewrite (re_sub_head_id blank_lines_re _ 10)
      by (apply blank_lines_no_match || apply plain_no_newline; assumption).
    apply re_sub_spaces_id, Hp.
  - rewrite !Forall_app. repeat split; try assumption;
      repeat (constructor; [discriminate|]); constructor.
Qed.

Lemma remove_links_image_without_alt_witness :
  let pre := lit "Logo: " in
  let u := lit "http://x.com/img.png" in
  let post := lit "!" in
  plain (pre ++ post) /\ u <> [] /\
  Forall (fun c => c <> 0x29 /\ c <> 0x60 /\ c <> 0x5B) u /\
  remove_links_from_markdown (pre ++ lit "![](" ++ u ++ lit ")" ++ post)
  = lit "Logo: !".
Proof.
  intros pre u post.
  assert (H1 : plain (pre ++ post)).
  { split; [|vm_compute; reflexivity].
    cbn. repeat (constructor; [repeat split; discriminate|]). constructor. }
  assert (H2 : u <> []) by discriminate.
  assert (H3 : Forall (fun c => c <> 0x29 /\ c <> 0x60 /\ c <> 0x5B) u)
    by (cbn; repeat (constructor; [repeat split; discriminate|]); constructor).
  repeat (split; [assumption|]).
  exact (remove_links_image_without_alt pre u post H1 H2 H3).
Defined.

(** ** More on sanitize_text *)

Lemma sanitize_text_of_encodable (x : pyval) :
  x <> VNone -> is_Some (utf8_encode (py_str x)) -> sanitize_text x = py_str x.
Proof.
  destruct x as [|s|z|b']; intros Hx [b Hb]; [contradiction|..];
    unfold sanitize_text; cbn [py_str] in *; rewrite Hb; reflexivity.
Qed.

(** Whatever goes in, what [sanitize_text] returns can be encoded in UTF-8:
    the input itself when it can, pure ASCII otherwise. *)
Theorem sanitize_text_always_encodable (x : pyval) :
  is_Some (utf8_encode (sanitize_text x)) /\
  (sanitize_text x = py_str x \/ x = VNone \/
   Forall (fun c => c <= 0x7F) (sanitize_text x)).
Proof.
  assert (Hdec : x = VNone \/ x <> VNone)
    by (destruct x; [left; reflexivity|right; discriminate..]).
  destruct Hdec as [->|Hx].
  - split; [cbn; eauto|]. right. left. reflexivity.
  - destruct (sanitize_text_ascii x) as [Hn | [Henc | Hascii]].
    + contradiction.
    + rewrite (sanitize_text_of_encodable x Hx Henc).
      split; [exact Henc|left; reflexivity].
    + split; [apply utf8_encode_ascii, Hascii|]. right. right. exact Hascii.
Qed.

(** ** More on the loop body *)

(** A result with neither markdown nor text, absent or empty, whose URL can
    be printed is counted as failed; nothing else happens. *)
Theorem no_content_counted_failed (E : env) (path : str) (r : PageResult)
    (st : state) :
  is_Some (utf8_encode (url r)) ->
  (markdown r = None \/ markdown r = Some []) ->
  (text r = None \/ text r = Some []) ->
  process_result E path r st = (Ok tt, set_stats incr_failed st) /\
  classify r = SkippedNoContent.
Proof.
  intros Hurl Hm Ht.
  assert (Hp : forall s, print (lit "No content found for " ++ url r
                                ++ lit " - Skipped") s = (Ok tt, s)).
  { intros s. apply print_ok.
    apply printable_app; [vm_compute; eauto|].
    apply printable_app; [exact Hurl|vm_compute; eauto]. }
  destruct Hm as [Hm|Hm], Ht as [Ht|Ht]; unfold process_result, classify;
    rewrite Hm, Ht; cbn [py_or]; unfold bind; rewrite Hp; split; reflexivity.
Qed.

Lemma no_content_counted_failed_witness :
  let r := {| url := lit "http://example.com/empty"; markdown := Some [];
              text := None; metadata := None |} in
  is_Some (utf8_encode (url r)) /\
  (markdown r = None \/ markdown r = Some []) /\
  (text r = None \/ text r = Some []) /\
  process_result sample_env (lit "out.md") r initial_state
    = (Ok tt, set_stats incr_failed initial_state).
Proof.
  intros r.
  assert (H0 : is_Some (utf8_encode (url r))) by (vm_compute; eauto).
  assert (H1 : markdown r = None \/ markdown r = Some []) by (right; reflexivity).
  assert (H2 : text r = None \/ text r = Some []) by (left; reflexivity).
  split; [exact H0|]. split; [exact H1|]. split; [exact H2|].
  exact (proj1 (no_content_counted_failed sample_env (lit "out.md") r
                  initial_state H0 H1 H2)).
Defined.

(** A text with ["403 Forbidden"] and ["nginx"] but without
    ["404 Not Found"], in a result whose URL can be printed, is counted as
    forbidden; nothing is written and the metadata are not looked at. *)
Theorem body_signature_403_skipped (E : env) (path : str) (r : PageResult)
    (st : state) (t : str) :
  is_Some (utf8_encode (url r)) ->
  py_or (markdown r) (text r) = Some t ->
  contains (lit "403 Forbidden") t = true ->
  contains (lit "nginx") t = true ->
  contains (lit "404 Not Found") t = false ->
  process_result E path r st = (Ok tt, set_stats incr_forbidden st) /\
  classify r = SkippedErrorPage Forbidden.
Proof.
  intros Hurl Ht H403 Hng H404. unfold process_result, classify. rewrite Ht.
  destruct t as [|c t]; [discriminate H403|].
  rewrite H404, H403, Hng. cbn [orb andb]. split; [|reflexivity].
  unfold bind. rewrite print_ok; [reflexivity|].
  apply printable_app; [vm_compute; eauto|].
  apply printable_app; [vm_compute; eauto|exact Hurl].
Qed.

Lemma body_signature_403_skipped_witness :
  let r := {| url := lit "http://example.com/private"; markdown := None;
              text := Some (lit "<h1>403 Forbidden</h1><hr>nginx");
              metadata := None |} in
  is_Some (utf8_encode (url r)) /\
  py_or (markdown r) (text r) = Some (lit "<h1>403 Forbidden</h1><hr>nginx") /\
  process_result sample_env (lit "out.md") r initial_state
    = (Ok tt, set_stats incr_forbidden initial_state).
Proof.
  intros r.
  assert (H0 : is_Some (utf8_encode (url r))) by (vm_compute; eauto).
  split; [exact H0|]. split; [reflexivity|].
  apply (body_signature_403_skipped sample_env (lit "out.md") r initial_state
           (lit "<h1>403 Forbidden</h1><hr>nginx") H0);
    vm_compute; reflexivity.
Defined.

(** A result with text and without the body signature whose title holds one
    of the four indicators and whose URL can be printed is skipped after the
    clock was read once for its timestamp: as not found when the title has
    ["404"] or ["Not Found"], as forbidden otherwise.  Nothing is written. *)
Theorem error_title_skipped (E : env) (path : str) (r : PageResult)
    (st : state) (t : str) (meta : gmap str pyval) (title : str) :
  is_Some (utf8_encode (url r)) ->
  py_or (markdown r) (text r) = Some t -> t <> [] ->
  (contains (lit "404 Not Found") t || contains (lit "403 Forbidden") t)
    && contains (lit "nginx") t = false ->
  metadata r = Some meta ->
  default (VStr (lit "Untitled page")) (meta !! lit "title") = VStr title ->
  existsb (fun i => contains i title) error_indicators = true ->
  process_result E path r st =
  (Ok tt,
   set_stats (if contains (lit "404") title || contains (lit "Not Found") title
              then incr_not_found else incr_forbidden)
     (snd (now E st))).
Proof.
  intros Hurl Ht Hne Hsig Hmeta Htitle Hind. unfold process_result. rewrite Ht.
  destruct t as [|c t]; [contradiction|].
  rewrite Hsig, Hmeta. unfold bind at 1. cbn [ret]. unfold bind at 1.
  rewrite Htitle. unfold bind at 1. unfold now. cbn [snd].
  rewrite any_in_str, Hind.
  unfold bind at 1. rewrite print_ok.
  - unfold bind. rewrite !py_in_str.
    destruct (contains (lit "404") title); cbn [ret orb];
      [reflexivity|].
    rewrite py_in_str. destruct (contains (lit "Not Found") title); reflexivity.
  - apply printable_app; [vm_compute; eauto|exact Hurl].
Qed.

Lemma error_title_skipped_witness :
  let r := sample_page "welcome" "403 Forbidden Error" in
  is_Some (utf8_encode (url r)) /\
  py_or (markdown r) (text r) = Some (lit "welcome") /\
  process_result sample_env (lit "out.md") r initial_state =
  (Ok tt, set_stats incr_forbidden (snd (now sample_env initial_state))).
Proof.
  intros r.
  assert (H0 : is_Some (utf8_encode (url r))) by (vm_compute; eauto).
  split; [exact H0|]. split; [reflexivity|].
  apply (error_title_skipped sample_env (lit "out.md") r initial_state
           (lit "welcome")
           {[ lit "title" := VStr (lit "403 Forbidden Error"); lit "depth" := VInt 1 ]}
           (lit "403 Forbidden Error") H0);
    try (vm_compute; reflexivity). discriminate.
Defined.

(** An accepted result, when its section can be encoded and the write is
    not refused: the clock is read once, one write appends the section built
    from title, URL, depth, that reading and the stripped text, and
    [successful_pages] goes up by one. *)
Theorem accepted_page_written (E : env) (path : str) (r : PageResult)
    (st : state) (body : str) :
  classify r = Accepted body ->
  let section :=
    md_content (py_str (title_of r)) (url r) (py_str (depth_of r))
      (isoformat (clock E (now_calls st))) body in
  is_Some (utf8_encode section) ->
  write_error E (write_calls st) = None ->
  (exists t, py_or (markdown r) (text r) = Some t /\
             body = remove_links_from_markdown t) /\
  process_result E path r st =
  (Ok tt,
   {| now_calls := S (now_calls st);
      write_calls := S (write_calls st);
      fs := <[path := default [] (fs st !! path) ++ section]> (fs st);
      stats := incr_successful (stats st) |}).
Proof.
  unfold classify, process_result, title_of, depth_of.
  destruct (py_or (markdown r) (text r)) as [[|c t]|]; try discriminate.
  destruct (contains (lit "404 Not Found") (c :: t));
    destruct (contains (lit "403 Forbidden") (c :: t));
    destruct (contains (lit "nginx") (c :: t));
    cbn [orb andb]; try discriminate.
  all: destruct (metadata r) as [meta|]; try discriminate.
  all: change (default ∅ (Some meta)) with meta.
  all: destruct (default (VStr (lit "Untitled page")) (meta !! lit "title"))
         as [|title|z|b] eqn:Htitle; try discriminate.
  all: destruct (existsb (fun i => contains i title) error_indicators) eqn:Hind;
         [destruct (contains (lit "404") title || contains (lit "Not Found") title);
          discriminate|].
  all: intros Hbody [bytes Henc] Hw; injection Hbody as <-.
  all: split; [eexists; split; reflexivity|].
  all: unfold bind at 1; cbn [ret]; unfold bind at 1; unfold now; cbn [snd].
  all: unfold bind at 1; rewrite ?Htitle, any_in_str, Hind.
  all: unfold bind, write; cbn [py_str].
  all: cbn [py_str] in Henc; rewrite Henc; cbn [write_calls].
  all: rewrite Hw; reflexivity.
Qed.

Lemma accepted_page_written_witness :
  let r := sample_page "hello [a](b)" "Home" in
  let section :=
    md_content (lit "Home") (lit "http://example.com/page") (lit "1")
      (lit "2024-03-09T07:05:00") (lit "hello a") in
  classify r = Accepted (lit "hello a") /\
  process_result sample_env (lit "out.md") r initial_state =
  (Ok tt,
   {| now_calls := 1; write_calls := 1;
      fs := <[lit "out.md" := section]> ∅;
      stats := incr_successful zero_stats |}).
Proof.
  intros r section.
  assert (Hc : classify r = Accepted (lit "hello a")) by (vm_compute; reflexivity).
  split; [exact Hc|].
  apply (proj2 (accepted_page_written sample_env (lit "out.md") r initial_state
                  (lit "hello a") Hc
                  ltac:(vm_compute; eexists; reflexivity) eq_refl)).
Defined.

(** ** More on results_to_markdown *)

(** The function, read as the three ways it can go: the file cannot be
    opened, the loop raises, the loop ends. *)
Lemma results_to_markdown_unfold (E : env) (results : list PageResult)
    (path : str) (st : state) :
  results_to_markdown E results path st =
  match open_error E path with
  | Some msg =>
      (Ok {| error := Some (lit "Writing error: " ++ msg); file_path := None;
             res_stats := stats (started E st) |}, started E st)
  | None =>
      match for_each (process_result E path) results
              (set_fs (fun f => <[path := []]> f) (started E st)) with
      | (Raise e, st2) =>
          (Ok {| error := Some (lit "Writing error: " ++ exn_msg e);
                 file_path := None; res_stats := stats st2 |}, st2)
      | (Ok _, st2) =>
          let t1 := clock E (now_calls st2) in
          let st3 :=
            {| now_calls := S (now_calls st2); write_calls := write_calls st2;
               fs := fs st2; stats := set_end_time t1 (stats st2) |} in
          match start_time (stats st2) with
          | Some b =>
              (Ok {| error := None; file_path := Some path;
                     res_stats := set_duration_seconds (sub_microseconds t1 b)
                                    (set_end_time t1 (stats st2)) |},
               set_stats (set_duration_seconds (sub_microseconds t1 b)) st3)
          | None =>
              (Ok {| error := Some (lit "Writing error: " ++ lit "'start_time'");
                     file_path := None;
                     res_stats := set_end_time t1 (stats st2) |}, st3)
          end
      end
  end.
Proof.
  unfold results_to_markdown, try_except.
  unfold bind at 1. cbn [now]. unfold bind at 1. cbn [update_stats].
  unfold bind at 1. unfold open_w at 1.
  fold (started E st).
  change (set_stats _ {| now_calls := S (now_calls st);
                         write_calls := write_calls st; fs := fs st;
                         stats := stats st |}) with (started E st).
  destruct (open_error E path) as [msg|]; [reflexivity|].
  unfold bind at 1.
  destruct (for_each (process_result E path) results
              (set_fs (fun f => <[path := []]> f) (started E st)))
    as [[[]|e] st2]; [|reflexivity].
  cbn. destruct (start_time (stats st2)); reflexivity.
Qed.

(** When the output file cannot be opened, the function returns a failure
    with the message of the error behind ["Writing error: "], no file path
    and the fresh statistics (all counters 0, the start time, no duration);
    no file is touched and no result is looked at. *)
Theorem open_failure_result (E : env) (results : list PageResult) (path : str)
    (st : state) (msg : str) :
  open_error E path = Some msg ->
  results_to_markdown E results path st =
  (Ok {| error := Some (lit "Writing error: " ++ msg);
         file_path := None;
         res_stats :=
           {| successful_pages := 0; failed_pages := 0; not_found_pages := 0;
              forbidden_pages := 0; start_time := Some (clock E (now_calls st));
              end_time := None; duration_seconds := None |} |},
   started E st) /\
  fs (started E st) = fs st.
Proof.
  intros Hopen. rewrite results_to_markdown_unfold, Hopen. split; reflexivity.
Qed.

(** With no results at all the function still creates the output file,
    empty, and reports success with all counters 0 and the duration between
    its two readings of the clock. *)
Theorem empty_results_success (E : env) (path : str) (st : state) :
  open_error E path = None ->
  let t0 := clock E (now_calls st) in
  let t1 := clock E (S (now_calls st)) in
  fst (results_to_markdown E [] path st) =
    Ok {| error := None; file_path := Some path;
          res_stats :=
            {| successful_pages := 0; failed_pages := 0; not_found_pages := 0;
               forbidden_pages := 0; start_time := Some t0; end_time := Some t1;
               duration_seconds := Some (sub_microseconds t1 t0) |} |} /\
  fs (snd (results_to_markdown E [] path st)) = <[path := []]> (fs st).
Proof.
  intros Hopen t0 t1. rewrite results_to_markdown_unfold, Hopen.
  split; reflexivity.
Qed.

(** The function never raises: it returns a success that names the output
    path, or a failure with a message ["Writing error: ..."] and no path;
    either way the statistics returned are the ones of the final state. *)
Theorem results_to_markdown_never_raises (E : env) (results : list PageResult)
    (path : str) (st : state) :
  exists r st',
    results_to_markdown E results path st = (Ok r, st') /\
    stats st' = res_stats r /\
    ((error r = None /\ file_path r = Some path) \/
     (exists msg, error r = Some (lit "Writing error: " ++ msg) /\
                  file_path r = None)).
Proof.
  rewrite results_to_markdown_unfold.
  destruct (open_error E path) as [msg|].
  - do 2 eexists. split; [reflexivity|]. split; [reflexivity|].
    right. eexists. split; reflexivity.
  - destruct (for_each (process_result E path) results _) as [[[]|e] st2].
    + cbn zeta. destruct (start_time (stats st2)).
      * do 2 eexists. split; [reflexivity|]. split; [reflexivity|].
        left. split; reflexivity.
      * do 2 eexists. split; [reflexivity|]. split; [reflexivity|].
        right. eexists. split; reflexivity.
    + do 2 eexists. split; [reflexivity|]. split; [reflexivity|].
      right. eexists. split; reflexivity.
Qed.

Lemma for_each_ok_no_abort (E : env) (path : str) (results : list PageResult) :
  forall st st',
    for_each (process_result E path) results st = (Ok tt, st') ->
    Forall (fun r => classify r <> Aborts) results.
Proof.
  induction results as [|r rs IH]; intros st st' H; [constructor|].
  cbn [for_each] in H. unfold bind in H.
  pose proof (process_result_cases E path r st) as Hr.
  destruct (process_result E path r st) as [[[]|e] st1]; [|discriminate].
  constructor; [|eapply IH; exact H].
  intros Hc. rewrite Hc in Hr. exact Hr.
Qed.

(** One result that has text and no body signature but no metadata mapping,
    or a title that is not a string, makes the whole aggregation fail,
    wherever it stands in the list. *)
Theorem aborting_result_fails_run (E : env) (results : list PageResult)
    (path : str) (st st' : state) (r : CrawlResult) :
  Exists (fun p => classify p = Aborts) results ->
  results_to_markdown E results path st = (Ok r, st') ->
  exists msg, error r = Some (lit "Writing error: " ++ msg) /\
              file_path r = None /\ duration_seconds (res_stats r) = None.
Proof.
  intros Hex Hrun. rewrite results_to_markdown_unfold in Hrun.
  destruct (open_error E path) as [msg|].
  - injection Hrun as <- _. eexists. repeat split.
  - pose proof (for_each_cases E path results
                  (set_fs (fun f => <[path := []]> f) (started E st))) as Hc.
    destruct (for_each (process_result E path) results _) as [[[]|e] st2] eqn:Hloop.
    + apply for_each_ok_no_abort in Hloop.
      rewrite Exists_exists in Hex. destruct Hex as (p & Hin & Hp).
      rewrite Forall_forall in Hloop. destruct (Hloop p Hin Hp).
    + injection Hrun as <- _. destruct Hc as (_ & _ & _ & Hd).
      eexists. repeat split. cbn [res_stats]. rewrite Hd. reflexivity.
Qed.

Lemma aborting_result_fails_run_witness :
  let untitled :=
    {| url := lit "http://example.com/raw"; markdown := Some (lit "plain text");
       text := None; metadata := Some {[ lit "title" := VNone ]} |} in
  let results := [sample_page "hello" "Home"; untitled; sample_page "bye" "End"] in
  let run := results_to_markdown sample_env results (lit "out.md") initial_state in
  let r := {| error := Some (lit "Writing error: argument of type 'NoneType' is not iterable");
              file_path := None;
              res_stats :=
                {| successful_pages := 1; failed_pages := 0; not_found_pages := 0;
                   forbidden_pages := 0; start_time := Some (sample_time 0);
                   end_time := None; duration_seconds := None |} |} in
  Exists (fun p => classify p = Aborts) results /\
  run = (Ok r, snd run) /\
  exists msg, error r = Some (lit "Writing error: " ++ msg) /\
              file_path r = None /\ duration_seconds (res_stats r) = None.
Proof.
  intros untitled results run r.
  assert (Hex : Exists (fun p => classify p = Aborts) results).
  { apply Exists_cons_tl, Exists_cons_hd. vm_compute. reflexivity. }
  assert (Hrun : run = (Ok r, snd run)) by (vm_compute; reflexivity).
  split; [exact Hex|]. split; [exact Hrun|].
  exact (aborting_result_fails_run sample_env results (lit "out.md") initial_state
           (snd run) r Hex Hrun).
Defined.

Lemma open_failure_result_witness :
  open_error read_only_env (lit "out.md")
    = Some (lit "[Errno 30] Read-only file system") /\
  fst (results_to_markdown read_only_env sample_pages (lit "out.md") initial_state) =
  Ok {| error := Some (lit "Writing error: [Errno 30] Read-only file system");
        file_path := None;
        res_stats :=
          {| successful_pages := 0; failed_pages := 0; not_found_pages := 0;
             forbidden_pages := 0; start_time := Some (sample_time 0);
             end_time := None; duration_seconds := None |} |}.
Proof.
  split; [reflexivity|].
  exact (f_equal fst
           (proj1 (open_failure_result read_only_env sample_pages (lit "out.md")
                     initial_state (lit "[Errno 30] Read-only file system")
                     eq_refl))).
Defined.

Lemma empty_results_success_witness :
  open_error sample_env (lit "out.md") = None /\
  fst (results_to_markdown sample_env [] (lit "out.md") initial_state) =
    Ok {| error := None; file_path := Some (lit "out.md");
          res_stats :=
            {| successful_pages := 0; failed_pages := 0; not_found_pages := 0;
               forbidden_pages := 0; start_time := Some (sample_time 0);
               end_time := Some (sample_time 1);
               duration_seconds := Some 1000000%Z |} |} /\
  fs (snd (results_to_markdown sample_env [] (lit "out.md") initial_state))
    = <[lit "out.md" := []]> ∅.
Proof.
  split; [reflexivity|].
  exact (empty_results_success sample_env (lit "out.md") initial_state eq_refl).
Defined.

(** ** Which files a run can touch *)

Lemma unchanged_except_refl (path : str) (s : state) : unchanged_except path s s.
Proof. intros p _. reflexivity. Qed.

Lemma unchanged_except_trans (path : str) (s1 s2 s3 : state) :
  unchanged_except path s1 s2 -> unchanged_except path s2 s3 ->
  unchanged_except path s1 s3.
Proof. intros H1 H2 p Hp. rewrite (H2 p Hp). apply H1, Hp. Qed.

Lemma confined_ret (path : str) {A : Type} (a : A) : confined_to path (ret a).
Proof. intros st. apply unchanged_except_refl. Qed.

Lemma confined_raise (path : str) {A : Type} (e : exn) :
  confined_to path (raise (A:=A) e).
Proof. intros st. apply unchanged_except_refl. Qed.

Lemma confined_bind (path : str) {A B : Type} (m : M A) (k : A -> M B) :
  confined_to path m -> (forall a, confined_to path (k a)) ->
  confined_to path (bind m k).
Proof.
  intros Hm Hk st. unfold bind. specialize (Hm st).
  destruct (m st) as [[a|e] st1]; cbn [snd] in *; [|exact Hm].
  eapply unchanged_except_trans; [exact Hm|apply Hk].
Qed.

Lemma confined_try_except (path : str) {A : Type} (m : M A) (h : exn -> M A) :
  confined_to path m -> (forall e, confined_to path (h e)) ->
  confined_to path (try_except m h).
Proof.
  intros Hm Hh st. unfold try_except. specialize (Hm st).
  destruct (m st) as [[a|e] st1]; cbn [snd] in *; [exact Hm|].
  eapply unchanged_except_trans; [exact Hm|apply Hh].
Qed.

Lemma confined_same_fs (path : str) {A : Type} (m : M A) :
  (forall st, fs (snd (m st)) = fs st) -> confined_to path m.
Proof. intros H st p _. rewrite H. reflexivity. Qed.

Lemma confined_insert (path : str) {A : Type} (m : M A) :
  (forall st, fs (snd (m st)) = fs st \/
              exists c, fs (snd (m st)) = <[path := c]> (fs st)) ->
  confined_to path m.
Proof.
  intros H st p Hp. destruct (H st) as [-> | [c ->]]; [reflexivity|].
  apply lookup_insert_ne. congruence.
Qed.

Lemma confined_py_in (path i : str) (v : pyval) : confined_to path (py_in i v).
Proof.
  apply confined_same_fs. intros st. destruct v as [| | |[]]; reflexivity.
Qed.

Lemma confined_any_in (path : str) (inds : list str) (v : pyval) :
  confined_to path (any_in inds v).
Proof.
  induction inds as [|i inds IH]; [apply confined_ret|].
  cbn [any_in]. apply confined_bind; [apply confined_py_in|].
  intros []; [apply confined_ret|exact IH].
Qed.

Lemma confined_write (E : env) (path data : str) :
  confined_to path (write E path data).
Proof.
  apply confined_insert. intros st. unfold write.
  destruct (utf8_encode data); [|left; reflexivity].
  destruct (write_error E (write_calls st)); [left; reflexivity|].
  right. eexists. reflexivity.
Qed.

Lemma confined_open_w (E : env) (path : str) : confined_to path (open_w E path).
Proof.
  apply confined_insert. intros st. unfold open_w.
  destruct (open_error E path); [left; reflexivity|].
  right. eexists. reflexivity.
Qed.

Lemma confined_update_stats (path : str) (f : Stats -> Stats) :
  confined_to path (update_stats f).
Proof. apply confined_same_fs. reflexivity. Qed.

Lemma confined_now (E : env) (path : str) : confined_to path (now E).
Proof. apply confined_same_fs. reflexivity. Qed.

Lemma confined_get_stats (path : str) : confined_to path get_stats.
Proof. apply confined_same_fs. reflexivity. Qed.


Lemma confined_print (path text : str) : confined_to path (print text).
Proof.
  apply confined_same_fs. intros st. unfold print.
  destruct (utf8_encode text); reflexivity.
Qed.

Lemma confined_process_result (E : env) (path : str) (r : PageResult) :
  confined_to path (process_result E path r).
Proof.
  unfold process_result.
  destruct (py_or (markdown r) (text r)) as [[|c t]|];
    try (apply confined_bind;
         [apply confined_print|intros _; apply confined_update_stats]).
  destruct ((contains (lit "404 Not Found") (c :: t)
             || contains (lit "403 Forbidden") (c :: t))
            && contains (lit "nginx") (c :: t)).
  - apply confined_bind; [apply confined_print|]. intros _.
    destruct (bool_decide _); apply confined_update_stats.
  - apply confined_bind.
    { destruct (metadata r); [apply confined_ret|apply confined_raise]. }
    intros meta. apply confined_bind; [apply confined_now|]. intros t0.
    apply confined_bind; [apply confined_any_in|]. intros [].
    + apply confined_bind; [apply confined_print|]. intros _.
      apply confined_bind; [apply confined_py_in|]. intros b404.
      apply confined_bind.
      { destruct b404; [apply confined_ret|apply confined_py_in]. }
      intros []; apply confined_update_stats.
    + apply confined_bind; [apply confined_write|].
      intros _. apply confined_update_stats.
Qed.

Lemma confined_for_each (path : str) {A : Type} (body : A -> M unit) (l : list A) :
  (forall x, confined_to path (body x)) -> confined_to path (for_each body l).
Proof.
  intros Hb. induction l as [|x l IH]; [apply confined_ret|].
  cbn [for_each]. apply confined_bind; [apply Hb|intros _; exact IH].
Qed.

Lemma confined_results_to_markdown (E : env) (results : list PageResult)
    (path : str) :
  confined_to path (results_to_markdown E results path).
Proof.
  unfold results_to_markdown.
  apply confined_bind; [apply confined_now|]. intros t0.
  apply confined_bind; [apply confined_update_stats|]. intros _.
  apply confined_try_except.
  - apply confined_bind; [apply confined_open_w|]. intros _.
    apply confined_bind;
      [apply confined_for_each; intros x; apply confined_process_result|].
    intros _. apply confined_bind; [apply confined_now|]. intros t1.
    apply confined_bind; [apply confined_update_stats|]. intros _.
    apply confined_bind; [apply confined_get_stats|]. intros s.
    apply confined_bind.
    { destruct (end_time s), (start_time s);
        try apply confined_raise; apply confined_update_stats. }
    intros _. apply confined_bind; [apply confined_get_stats|].
    intros s'. apply confined_ret.
  - intros e. apply confined_bind; [apply confined_get_stats|].
    intros s. apply confined_ret.
Qed.

(** The aggregation, whether it succeeds or fails, changes no file other
    than the one at its output path. *)
Theorem results_to_markdown_touches_only_output (E : env)
    (results : list PageResult) (path other : str) (st : state) :
  other <> path ->
  fs (snd (results_to_markdown E results path st)) !! other = fs st !! other.
Proof. intros H. apply (confined_results_to_markdown E results path st other H). Qed.

Lemma results_to_markdown_touches_only_output_witness :
  let st := set_fs (fun f => <[lit "notes.txt" := lit "keep me"]> f) initial_state in
  lit "notes.txt" <> lit "out.md" /\
  fs (snd (results_to_markdown sample_env sample_pages (lit "out.md") st))
    !! lit "notes.txt" = Some (lit "keep me").
Proof.
  intros st.
  assert (H : lit "notes.txt" <> lit "out.md") by discriminate.
  split; [exact H|].
  exact (results_to_markdown_touches_only_output sample_env sample_pages
           (lit "out.md") (lit "notes.txt") st H).
Defined.

(** ** More on crawl_and_output_to_markdown *)






(** ** More on the tool handler *)

Lemma crawl_tool_with_url_ok (E : env) (arguments : gmap str pyval)
    (st : state) (url : pyval) :
  arguments !! lit "url" = Some url ->
  exists item st', crawl_tool E (lit "crawl") arguments st = (Ok [item], st').
Proof.
  intros Hurl. unfold crawl_tool.
  rewrite bool_decide_eq_true_2 by reflexivity. cbn [negb]. rewrite Hurl.
  unfold try_except.
  match goal with
  | |- context [match ?m st with _ => _ end] => destruct (m st) as [[l|e] st1] eqn:Hbody
  end; [|do 2 eexists; reflexivity].
  unfold bind in Hbody.
  destruct (as_str url st) as [[u|e] s1]; [|discriminate].
  destruct (as_opt_str _ s1) as [[o|e] s2]; [|discriminate].
  destruct (crawl_and_output_to_markdown E u _ _ _ o s2) as [[r|e] s3];
    [|discriminate].
  destruct (error r) as [[|c m]|];
    destruct (file_path r), (duration_seconds (res_stats r));
    try discriminate; injection Hbody as <- <-; do 2 eexists; reflexivity.
Qed.



(** The handler rejects a call as unknown exactly when its name is not the
    name of a tool that [list_tools] advertises; the arguments play no part
    and the state is left as it was. *)
Theorem crawl_tool_unknown_iff_not_listed (E : env) (name : str)
    (arguments : gmap str pyval) (st : state) :
  crawl_tool E name arguments st =
    (Raise (ValueError (lit "Unknown tool: " ++ name)), st)
  <-> ~ In name (List.map tool_name list_tools).
Proof.
  split.
  - intros Hrun [<- | []].
    change (tool_name crawl_schema) with (lit "crawl") in Hrun.
    destruct (arguments !! lit "url") as [url|] eqn:Hurl.
    + destruct (crawl_tool_with_url_ok E arguments st url Hurl)
        as (item & st' & Hok).
      rewrite Hok in Hrun. discriminate.
    + unfold crawl_tool in Hrun.
      rewrite bool_decide_eq_true_2 in Hrun by reflexivity.
      cbn [negb] in Hrun. rewrite Hurl in Hrun.
      vm_compute in Hrun. discriminate.
  - intros Hnot. unfold crawl_tool.
    rewrite bool_decide_eq_false_2; [reflexivity|].
    intros ->. apply Hnot. left. reflexivity.
Qed.

(** A call of [crawl] is rejected for a missing argument exactly when a key
    that the advertised schema requires is absent from the arguments. *)
Theorem crawl_tool_missing_iff_required_absent (E : env)
    (arguments : gmap str pyval) (st : state) :
  crawl_tool E (lit "crawl") arguments st =
    (Raise (ValueError (lit "Missing required argument 'url'")), st)
  <-> Exists (fun k => arguments !! k = None) (schema_required crawl_schema).
Proof.
  change (schema_required crawl_schema) with [lit "url"]. split.
  - intros Hrun. destruct (arguments !! lit "url") as [url|] eqn:Hurl.
    + destruct (crawl_tool_with_url_ok E arguments st url Hurl)
        as (item & st' & Hok).
      rewrite Hok in Hrun. discriminate.
    + constructor. exact Hurl.
  - intros Hex. apply Exists_cons in Hex as [Hurl|Hnil].
    + unfold crawl_tool. rewrite bool_decide_eq_true_2 by reflexivity.
      cbn [negb]. rewrite Hurl. reflexivity.
    + inversion Hnil.
Qed.

Lemma lookup_union_default (m d : gmap str pyval) (k : str) (v : pyval) :
  d !! k = Some v -> default v ((m ∪ d) !! k) = default v (m !! k).
Proof.
  intros Hd. destruct (m !! k) as [x|] eqn:Hm.
  - rewrite (lookup_union_Some_l m d k x Hm). reflexivity.
  - rewrite lookup_union_r by exact Hm. rewrite Hd. reflexivity.
Qed.

(** The defaults that the schema advertises are the ones the handler uses:
    a call behaves the same when the caller fills in every argument it left
    out with the default of the schema. *)
Theorem crawl_tool_uses_schema_defaults (E : env) (arguments : gmap str pyval)
    (st : state) :
  crawl_tool E (lit "crawl") (arguments ∪ schema_defaults crawl_schema) st =
  crawl_tool E (lit "crawl") arguments st.
Proof.
  unfold crawl_tool.
  assert (Hurl : (arguments ∪ schema_defaults crawl_schema) !! lit "url"
                 = arguments !! lit "url").
  { destruct (arguments !! lit "url") as [x|] eqn:Hm.
    - apply lookup_union_Some_l, Hm.
    - rewrite lookup_union_r by exact Hm. vm_compute. reflexivity. }
  rewrite Hurl.
  rewrite (lookup_union_default arguments _ (lit "max_depth") (VInt 2))
    by (vm_compute; reflexivity).
  rewrite (lookup_union_default arguments _ (lit "include_external") (VBool false))
    by (vm_compute; reflexivity).
  rewrite (lookup_union_default arguments _ (lit "verbose") (VBool true))
    by (vm_compute; reflexivity).
  rewrite (lookup_union_default arguments _ (lit "output_file") VNone)
    by (vm_compute; reflexivity).
  reflexivity.
Qed.



(** A URL that [urlparse] rejects, in a call that gives no output file: the
    exception leaves [crawl_and_output_to_markdown] before its [try], is
    caught by the handler and comes back as the one item ["Error: ..."]
    with the sanitized message; nothing was crawled or written. *)
Theorem crawl_tool_rejected_url (E : env) (arguments : gmap str pyval)
    (st : state) (url : str) (e : exn) :
  arguments !! lit "url" = Some (VStr url) ->
  (arguments !! lit "output_file" = None \/
   arguments !! lit "output_file" = Some VNone \/
   arguments !! lit "output_file" = Some (VStr [])) ->
  makedirs_error E (results_directory E) = None ->
  urlparse_netloc url = Raise e ->
  (forall max_depth include_external verbose output_file,
     output_file = None \/ output_file = Some [] ->
     crawl_and_output_to_markdown E url max_depth include_external verbose
       output_file st = (Raise e, st)) /\
  crawl_tool E (lit "crawl") arguments st =
  (Ok [lit "Error: " ++ sanitize_text (VStr (exn_msg e))], st).
Proof.
  intros Hurl Hout Hdir Hparse.
  assert (Hraise : forall max_depth include_external verbose output_file,
     output_file = None \/ output_file = Some [] ->
     crawl_and_output_to_markdown E url max_depth include_external verbose
       output_file st = (Raise e, st)).
  { intros md ie vb o Ho. unfold crawl_and_output_to_markdown.
    unfold bind at 1.
    assert (Hname : (dir <- get_results_directory E ;;
                     name <- generate_filename_from_url E url ;;
                     ret (path_join dir name)) st = (Raise e, st)).
    { unfold get_results_directory, generate_filename_from_url, bind, makedirs.
      rewrite Hdir. cbn [ret]. rewrite Hparse. reflexivity. }
    destruct Ho as [-> | ->]; rewrite Hname; reflexivity. }
  split; [exact Hraise|].
  unfold crawl_tool. rewrite bool_decide_eq_true_2 by reflexivity. cbn [negb].
  rewrite Hurl. unfold try_except. unfold bind at 1. cbn [as_str ret].
  unfold bind at 1.
  destruct Hout as [-> | [-> | ->]]; cbn [default from_option id as_opt_str ret];
    unfold bind at 1; rewrite Hraise by auto; reflexivity.
Qed.

Lemma crawl_tool_rejected_url_witness :
  let arguments : gmap str pyval := {[ lit "url" := VStr (lit "http://[::1/x") ]} in
  arguments !! lit "url" = Some (VStr (lit "http://[::1/x")) /\
  arguments !! lit "output_file" = None /\
  urlparse_netloc (lit "http://[::1/x") = Raise (ValueError (lit "Invalid IPv6 URL")) /\
  crawl_tool sample_env (lit "crawl") arguments initial_state =
  (Ok [lit "Error: Invalid IPv6 URL"], initial_state).
Proof.
  intros arguments.
  assert (H1 : arguments !! lit "url" = Some (VStr (lit "http://[::1/x")))
    by (vm_compute; reflexivity).
  assert (H2 : arguments !! lit "output_file" = None) by (vm_compute; reflexivity).
  assert (H3 : urlparse_netloc (lit "http://[::1/x")
               = Raise (ValueError (lit "Invalid IPv6 URL")))
    by (vm_compute; reflexivity).
  repeat (split; [assumption|]).
  exact (proj2 (crawl_tool_rejected_url sample_env arguments initial_state
                  (lit "http://[::1/x") (ValueError (lit "Invalid IPv6 URL"))
                  H1 (or_introl H2) eq_refl H3)).
Defined.

(** ** More on the derived file name *)

Lemma take_until_Forall (p : N -> bool) (s : str) :
  Forall (fun c => p c = false) (take_until p s).
Proof.
  induction s as [|c s IH]; cbn [take_until]; [constructor|].
  destruct (p c) eqn:Hc; constructor; assumption.
Qed.

Lemma urlparse_netloc_no_slash (url netloc : str) :
  urlparse_netloc url = Ok netloc -> Forall (fun c => c <> 0x2F) netloc.
Proof.
  assert (Hnil : Ok [] = Ok netloc -> Forall (fun c => c <> 0x2F) netloc)
    by (intros H; injection H as <-; constructor).
  unfold urlparse_netloc. cbn zeta.
  set (u := strip_scheme _). clearbody u.
  destruct u as [|a [|b rest]]; [exact Hnil| |].
  { destruct a as [|a]; [exact Hnil|].
    repeat (destruct a as [a|a|]; try exact Hnil). }
  destruct a as [|a]; [exact Hnil|].
  repeat (destruct a as [a|a|]; try exact Hnil).
  destruct b as [|b]; [exact Hnil|].
  repeat (destruct b as [b|b|]; try exact Hnil).
  destruct (_ || _); [discriminate|]. intros H. injection H as <-.
  eapply Forall_impl; [apply take_until_Forall|].
  intros c Hc ->. discriminate Hc.
Qed.

(** The derived file name is [crawl_], a stem and [.md], and the stem has
    no slash and no dot: whatever the URL, the name stays a single path
    component whose only dot is the one of the extension. *)
Theorem derived_filename_single_component (E : env) (start_url : str)
    (st : state) (name : str) :
  fst (generate_filename_from_url E start_url st) = Ok name ->
  exists stem,
    name = lit "crawl_" ++ stem ++ lit ".md" /\
    Forall (fun c => c <> 0x2F /\ c <> 0x2E) stem /\
    path_join (results_directory E) name =
      (if bool_decide (results_directory E = []) then name
       else if bool_decide (last (results_directory E) = Some 0x2F)
       then results_directory E ++ name
       else results_directory E ++ lit "/" ++ name).
Proof.
  intros Hname.
  destruct (urlparse_netloc start_url) as [netloc|e] eqn:Hn.
  - rewrite (generate_filename_from_url_dots E start_url netloc st Hn) in Hname.
    injection Hname as <-.
    exists (List.map (fun c => if c =? 0x2E then 0x5F else c) netloc
            ++ lit "_" ++ strftime_compact (clock E (now_calls st))).
    split; [rewrite <- !app_assoc; reflexivity|]. split; [|reflexivity].
    rewrite !Forall_app. split; [|split].
    + pose proof (urlparse_netloc_no_slash _ _ Hn) as Hs. clear Hn.
      induction netloc as [|c l IH]; cbn [List.map]; [constructor|].
      inversion Hs; subst. constructor; [|apply IH; assumption].
      destruct (N.eqb_spec c 0x2E); [split; discriminate|split; assumption].
    + constructor; [split; discriminate|constructor].
    + unfold strftime_compact. rewrite !Forall_app.
      assert (Hd : forall w n, Forall (fun c => c <> 0x2F /\ c <> 0x2E) (pad w n)).
      { intros w n. eapply Forall_impl; [apply pad_digits|].
        intros c Hc. split; intros ->; discriminate Hc. }
      repeat split; try apply Hd.
      constructor; [split; discriminate|constructor].
  - unfold generate_filename_from_url, bind in Hname. rewrite Hn in Hname.
    discriminate.
Qed.

Lemma derived_filename_single_component_witness :
  fst (generate_filename_from_url sample_env (lit "http://a.b/../../etc/passwd")
         initial_state) = Ok (lit "crawl_a_b_20240309_070500.md") /\
  exists stem,
    lit "crawl_a_b_20240309_070500.md" = lit "crawl_" ++ stem ++ lit ".md" /\
    Forall (fun c => c <> 0x2F /\ c <> 0x2E) stem.
Proof.
  assert (H : fst (generate_filename_from_url sample_env
                     (lit "http://a.b/../../etc/passwd") initial_state)
              = Ok (lit "crawl_a_b_20240309_070500.md"))
    by (vm_compute; reflexivity).
  split; [exact H|].
  destruct (derived_filename_single_component sample_env _ initial_state _ H)
    as (stem & H1 & H2 & _).
  exists stem. split; assumption.
Defined.

Lemma aggregator_success_duration_witness :
  let run := results_to_markdown sample_env sample_pages (lit "out.md")
               initial_state in
  run = (Ok sample_result, snd run) /\
  error sample_result = None /\
  exists e, end_time (res_stats sample_result) = Some e /\
    duration_seconds (res_stats sample_result) =
      Some (sub_microseconds e (sample_time 0)).
Proof.
  intros run.
  assert (Hrun : run = (Ok sample_result, snd run)) by (vm_compute; reflexivity).
  split; [exact Hrun|]. split; [reflexivity|].
  exact (aggregator_success_duration sample_env sample_pages (lit "out.md")
           initial_state (snd run) sample_result Hrun eq_refl).
Defined.

(** ** The counters one by one *)

Lemma for_each_counts (E : env) (path : str) (results : list PageResult) :
  forall st st',
    for_each (process_result E path) results st = (Ok tt, st') ->
    successful_pages (stats st') =
      (successful_pages (stats st) + count_outcome is_accepted_outcome results)%nat /\
    failed_pages (stats st') =
      (failed_pages (stats st) + count_outcome is_no_content results)%nat /\
    not_found_pages (stats st') =
      (not_found_pages (stats st) + count_outcome is_not_found results)%nat /\
    forbidden_pages (stats st') =
      (forbidden_pages (stats st) + count_outcome is_forbidden results)%nat.
Proof.
  unfold count_outcome.
  induction results as [|r rs IH]; intros st st' H.
  - injection H as <-. cbn. repeat split; lia.
  - cbn [for_each] in H. unfold bind in H.
    pose proof (process_result_cases E path r st) as Hr.
    destruct (process_result E path r st) as [[[]|e] st1]; [|discriminate].
    destruct (IH st1 st' H) as (H1 & H2 & H3 & H4).
    rewrite H1, H2, H3, H4. cbn [List.filter].
    destruct (classify r) as [body| |[|]|]; [| | | |contradiction];
      cbn [is_accepted_outcome is_no_content is_not_found is_forbidden length].
    + destruct Hr as (t & -> & _). cbn. repeat split; lia.
    + destruct Hr as (-> & _). cbn. repeat split; lia.
    + destruct Hr as (-> & _). cbn. repeat split; lia.
    + destruct Hr as (-> & _). cbn. repeat split; lia.
Qed.

(** When the aggregation succeeds, each counter is the number of results of
    its class: accepted, without content, recognised as a 404 page,
    recognised as a 403 page. *)
Theorem counters_match_classification (E : env) (results : list PageResult)
    (path : str) (st st' : state) (r : CrawlResult) :
  results_to_markdown E results path st = (Ok r, st') ->
  error r = None ->
  successful_pages (res_stats r) = count_outcome is_accepted_outcome results /\
  failed_pages (res_stats r) = count_outcome is_no_content results /\
  not_found_pages (res_stats r) = count_outcome is_not_found results /\
  forbidden_pages (res_stats r) = count_outcome is_forbidden results.
Proof.
  intros Hrun Herr. rewrite results_to_markdown_unfold in Hrun.
  destruct (open_error E path); [injection Hrun as <- _; discriminate|].
  destruct (for_each (process_result E path) results _) as [[[]|e] st2] eqn:Hloop;
    [|injection Hrun as <- _; discriminate].
  apply for_each_counts in Hloop. cbn in Hloop.
  cbn zeta in Hrun.
  destruct (start_time (stats st2)); injection Hrun as <- _; [|discriminate].
  exact Hloop.
Qed.

Lemma counters_match_classification_witness :
  let run := results_to_markdown sample_env sample_pages (lit "out.md")
               initial_state in
  run = (Ok sample_result, snd run) /\
  error sample_result = None /\
  List.map classify sample_pages =
    [Accepted (lit "hello a"); SkippedErrorPage NotFound;
     SkippedErrorPage Forbidden; SkippedNoContent] /\
  successful_pages (res_stats sample_result)
    = count_outcome is_accepted_outcome sample_pages /\
  failed_pages (res_stats sample_result)
    = count_outcome is_no_content sample_pages /\
  not_found_pages (res_stats sample_result)
    = count_outcome is_not_found sample_pages /\
  forbidden_pages (res_stats sample_result)
    = count_outcome is_forbidden sample_pages.
Proof.
  intros run.
  assert (Hrun : run = (Ok sample_result, snd run)) by (vm_compute; reflexivity).
  split; [exact Hrun|]. split; [reflexivity|].
  split; [vm_compute; reflexivity|].
  exact (counters_match_classification sample_env sample_pages (lit "out.md")
           initial_state (snd run) sample_result Hrun eq_refl).
Defined.
